(** * simple-color-palette: a shallow embedding of [index.js] and proofs of its specification

    JavaScript numbers are modelled by [num]: a finite value is an exact real
    number (IEEE rounding and overflow are not modelled), and NaN and the two
    infinities are kept as separate constructors, so that the behaviour of the
    source on non-finite input is visible.  Every arithmetic expression of the
    source has one finite constant operand, so the arithmetic below is written
    for that shape.  Where a statement about the code would fail in double
    precision for large values (a product or power overflowing to Infinity,
    or [roundToFourDecimals] of an already rounded value moving by one unit
    in the last place), it carries a bound on the magnitudes involved; the
    statements about the transfer functions are about exact arithmetic and
    say so. *)

From Stdlib Require Import Reals Lra Lia ZArith String Ascii List Bool.
Import ListNotations.
Set Warnings "-register-all".
Open Scope string_scope.

Open Scope R_scope.

(** ** JavaScript numbers *)

Inductive num : Type :=
| Fin (r : R)
| NaN
| PosInf
| NegInf.

Definition is_finite (x : num) : Prop :=
  match x with Fin _ => True | _ => False end.

(** [x + c] for a finite constant [c]. *)
Definition num_add_c (x : num) (c : R) : num :=
  match x with
  | Fin a => Fin (a + c)
  | y => y
  end.

(** [x * c] for a finite constant [c > 0] (in double precision a product
    above about 1.8e308 is Infinity). *)
Definition num_mul_c (x : num) (c : R) : num :=
  match x with
  | Fin a => Fin (a * c)
  | y => y
  end.

(** [x / c] for a finite constant [c > 0]. *)
Definition num_div_c (x : num) (c : R) : num :=
  match x with
  | Fin a => Fin (a / c)
  | y => y
  end.

(** [x <= c] for a finite constant [c]. *)
Definition num_le_c (x : num) (c : R) : bool :=
  match x with
  | Fin a => if Rle_dec a c then true else false
  | NaN => false
  | PosInf => false
  | NegInf => true
  end.

(** [x < c] for a finite constant [c]. *)
Definition num_lt_c (x : num) (c : R) : bool :=
  match x with
  | Fin a => if Rlt_dec a c then true else false
  | NaN => false
  | PosInf => false
  | NegInf => true
  end.

(** [x !== c] for a finite constant [c]. *)
Definition num_neq_c (x : num) (c : R) : bool :=
  match x with
  | Fin a => if Req_EM_T a c then false else true
  | _ => true
  end.

(** [x ** y] for a constant exponent [y] that is positive and not an
    integer (the source uses [2.4] and [1 / 2.4]): a negative base gives NaN,
    and [(-Infinity) ** y] is [Infinity] (in double precision a finite
    power above about 1.8e308 is Infinity as well). *)
Definition num_pow_c (x : num) (y : R) : num :=
  match x with
  | Fin a =>
      if Rlt_dec 0 a then Fin (Rpower a y)
      else if Req_EM_T a 0 then Fin 0 else NaN
  | NaN => NaN
  | PosInf => PosInf
  | NegInf => PosInf
  end.

(** [Math.round]: the integer closest to [x], ties towards [+Infinity]. *)
Definition Math_round (x : num) : num :=
  match x with
  | Fin a => Fin (IZR (Int_part (a + / 2)))
  | y => y
  end.

(** [Math.min(c, x)] for a finite constant [c]. *)
Definition Math_min_c (c : R) (x : num) : num :=
  match x with
  | Fin a => Fin (Rmin c a)
  | NaN => NaN
  | PosInf => Fin c
  | NegInf => NegInf
  end.

(** [Math.max(c, x)] for a finite constant [c]. *)
Definition Math_max_c (c : R) (x : num) : num :=
  match x with
  | Fin a => Fin (Rmax c a)
  | NaN => NaN
  | PosInf => PosInf
  | NegInf => Fin c
  end.

(** ** Helpers of [index.js] *)

Definition roundToFourDecimals (number : num) : num :=
  let multiplier := 10000 in
  num_div_c (Math_round (num_mul_c number multiplier)) multiplier.

Definition sRGBToLinear (srgb : num) : num :=
  if num_le_c srgb 0.04045 then num_div_c srgb 12.92
  else num_pow_c (num_div_c (num_add_c srgb 0.055) 1.055) 2.4.

Definition linearToSRGB (linear : num) : num :=
  if num_le_c linear 0.0031308 then num_mul_c linear 12.92
  else num_add_c (num_mul_c (num_pow_c linear (1 / 2.4)) 1.055) (- 0.055).

Definition clampOpacity (value : num) : num :=
  Math_max_c 0 (Math_min_c 1 value).

(** ** JavaScript values, exceptions and the error monad *)

(** The values the source reads and builds: options objects, parsed JSON
    documents and the results of [toJSON].  Strings are byte strings. *)
Inductive jsval : Type :=
| JUndefined
| JNull
| JBool (b : bool)
| JNumber (n : num)
| JString (s : string)
| JArray (items : list jsval)
| JObject (props : list (string * jsval)).

Inductive exn : Type :=
| TypeError (message : string)
| Error (message : string)
| SyntaxError (message : string).

Inductive result (A : Type) : Type :=
| Ok (a : A)
| Throw (e : exn).
Arguments Ok {A} a.
Arguments Throw {A} e.

Definition bind {A B} (m : result A) (k : A -> result B) : result B :=
  match m with
  | Ok a => k a
  | Throw e => Throw e
  end.

Notation "'let*' x ':=' m 'in' k" := (bind m (fun x => k))
  (at level 200, x name, m at level 100, k at level 200).

(** [for (const x of xs) check(x)]: the first exception stops the loop. *)
Fixpoint for_each {A} (check : A -> result unit) (xs : list A) : result unit :=
  match xs with
  | [] => Ok tt
  | x :: rest => let* _ := check x in for_each check rest
  end.

(** [xs.map(f)] for a callback that may throw. *)
Fixpoint map_result {A B} (f : A -> result B) (xs : list A) : result (list B) :=
  match xs with
  | [] => Ok []
  | x :: rest =>
      let* y := f x in
      let* ys := map_result f rest in
      Ok (y :: ys)
  end.

(** Truthiness, as used by [if (this.name)], [this.name && ...] and
    [isLinear ? ... : ...]. *)
Definition truthy (v : jsval) : bool :=
  match v with
  | JUndefined | JNull => false
  | JBool b => b
  | JNumber (Fin r) => if Req_EM_T r 0 then false else true
  | JNumber NaN => false
  | JNumber _ => true
  | JString s => negb (String.eqb s EmptyString)
  | JArray _ | JObject _ => true
  end.

(** Property lookup on an object: the last binding of the key wins, as for
    an object literal or a parsed JSON text with a repeated key. *)
Definition lookup (k : string) (props : list (string * jsval)) : jsval :=
  fold_left (fun acc kv => if String.eqb (fst kv) k then snd kv else acc)
    props JUndefined.

(** [v.k] for the property names the source reads ([colors], [components],
    [name]), none of which is an own or inherited property of a primitive or
    an array; reading from [null] or [undefined] throws. *)
Definition get (v : jsval) (k : string) : result jsval :=
  match v with
  | JUndefined => Throw (TypeError ("Cannot read properties of undefined (reading '" ++ k ++ "')"))
  | JNull => Throw (TypeError ("Cannot read properties of null (reading '" ++ k ++ "')"))
  | JObject props => Ok (lookup k props)
  | _ => Ok JUndefined
  end.

(** A destructuring default [{k = d}]: applies when the property is
    [undefined]. *)
Definition with_default (v d : jsval) : jsval :=
  match v with JUndefined => d | _ => v end.

(** [ToNumber] on the values [roundToFourDecimals] can receive from
    [deserialize]; validation lets only numbers through there. *)
Definition to_number (v : jsval) : num :=
  match v with
  | JNumber n => n
  | JNull => Fin 0
  | JBool true => Fin 1
  | JBool false => Fin 0
  | _ => NaN
  end.

Definition validateComponent (value : jsval) (name : string) : result num :=
  match value with
  | JNumber n => Ok n
  | _ => Throw (TypeError (name ++ " component must be a number"))
  end.

(** ** [class Color] *)

Module Color.

(** The state of a [Color] instance: the public [name] and the four private
    fields [#linearRed], [#linearGreen], [#linearBlue] and [#opacity]. *)
Record t : Type := mk {
  name : jsval;
  linearRed : num;
  linearGreen : num;
  linearBlue : num;
  opacity : num
}.

(** [new Color(options)].  [options = {}] applies when no argument is given;
    destructuring [null] throws. *)
Definition constructor (options : jsval) : result t :=
  let* o :=
    match options with
    | JUndefined => Ok (JObject [])
    | JNull => Throw (TypeError "Cannot destructure property 'name' of 'object null' as it is null.")
    | v => Ok v
    end in
  let* name := get o "name" in
  let* red := get o "red" in
  let* green := get o "green" in
  let* blue := get o "blue" in
  let* opacity0 := get o "opacity" in
  let opacity := with_default opacity0 (JNumber (Fin 1)) in
  let* isLinear0 := get o "isLinear" in
  let isLinear := with_default isLinear0 (JBool false) in
  let* r := validateComponent red "Red" in
  let* g := validateComponent green "Green" in
  let* b := validateComponent blue "Blue" in
  let* a := validateComponent opacity "Opacity" in
  Ok {| name := name;
        linearRed := roundToFourDecimals (if truthy isLinear then r else sRGBToLinear r);
        linearGreen := roundToFourDecimals (if truthy isLinear then g else sRGBToLinear g);
        linearBlue := roundToFourDecimals (if truthy isLinear then b else sRGBToLinear b);
        opacity := roundToFourDecimals (clampOpacity a) |}.

(** [get red()], [get green()], [get blue()], [get opacity()]. *)
Definition red (c : t) : num := linearToSRGB (linearRed c).
Definition green (c : t) : num := linearToSRGB (linearGreen c).
Definition blue (c : t) : num := linearToSRGB (linearBlue c).
Definition get_opacity (c : t) : num := opacity c.

(** [set red(value)]: no rounding in the setters. *)
Definition set_red (c : t) (value : jsval) : result t :=
  match value with
  | JNumber n =>
      Ok {| name := name c; linearRed := sRGBToLinear n; linearGreen := linearGreen c;
            linearBlue := linearBlue c; opacity := opacity c |}
  | _ => Throw (TypeError "Red component must be a number")
  end.

Definition set_green (c : t) (value : jsval) : result t :=
  match value with
  | JNumber n =>
      Ok {| name := name c; linearRed := linearRed c; linearGreen := sRGBToLinear n;
            linearBlue := linearBlue c; opacity := opacity c |}
  | _ => Throw (TypeError "Green component must be a number")
  end.

Definition set_blue (c : t) (value : jsval) : result t :=
  match value with
  | JNumber n =>
      Ok {| name := name c; linearRed := linearRed c; linearGreen := linearGreen c;
            linearBlue := sRGBToLinear n; opacity := opacity c |}
  | _ => Throw (TypeError "Blue component must be a number")
  end.

Definition set_opacity (c : t) (value : jsval) : result t :=
  match value with
  | JNumber n =>
      Ok {| name := name c; linearRed := linearRed c; linearGreen := linearGreen c;
            linearBlue := linearBlue c; opacity := clampOpacity n |}
  | _ => Throw (TypeError "Opacity must be a number")
  end.

Definition components (c : t) : jsval :=
  JObject [("red", JNumber (red c)); ("green", JNumber (green c));
           ("blue", JNumber (blue c)); ("opacity", JNumber (get_opacity c))].

Definition linearComponents (c : t) : jsval :=
  JObject [("red", JNumber (linearRed c)); ("green", JNumber (linearGreen c));
           ("blue", JNumber (linearBlue c)); ("opacity", JNumber (opacity c))].

Definition toJSON (c : t) : jsval :=
  let components :=
    ([JNumber (roundToFourDecimals (linearRed c));
      JNumber (roundToFourDecimals (linearGreen c));
      JNumber (roundToFourDecimals (linearBlue c))]
     ++ (if num_neq_c (opacity c) 1
         then [JNumber (roundToFourDecimals (opacity c))] else []))%list in
  JObject (("components", JArray components)
             :: (if truthy (name c) then [("name", name c)] else [])).

(** [ToInt32], and the operators [>>] and [&] on integral numbers. *)
Definition toInt32 (z : Z) : Z :=
  let m := Z.modulo z (2 ^ 32) in
  if Z.leb (2 ^ 31) m then (m - 2 ^ 32)%Z else m.

Definition js_sar (a n : Z) : Z := Z.shiftr (toInt32 a) (Z.modulo n 32).

Definition js_and (a b : Z) : Z := Z.land (toInt32 a) (toInt32 b).

(** [Number.isInteger]. *)
Definition Number_isInteger (x : num) : bool :=
  match x with
  | Fin r => if Req_EM_T (IZR (Int_part r)) r then true else false
  | _ => false
  end.

(** [(bits & mask) / d] as a number. *)
Definition channel (bits mask : Z) (d : R) : num := Fin (IZR (js_and bits mask) / d).

Definition rgba_options (red green blue opacity : num) : jsval :=
  JObject [("red", JNumber red); ("green", JNumber green);
           ("blue", JNumber blue); ("opacity", JNumber opacity)].

Definition fromHexNumber (hex : num) : result t :=
  if negb (Number_isInteger hex) || num_lt_c hex 0 then Throw (Error "Invalid hex value")
  else
    (* [hex] is a non-negative integer here, so its [ToInt32] operand is its
       integer value *)
    let h := match hex with Fin r => Int_part r | _ => 0%Z end in
    let channels :=
      if num_le_c hex (IZR 0xFFF) then (* 12-bit RGB *)
        Some (channel (js_sar h 8) 0xF 15, channel (js_sar h 4) 0xF 15,
              channel h 0xF 15, Fin 1)
      else if num_le_c hex (IZR 0xFFFF) then (* 16-bit RGBA *)
        Some (channel (js_sar h 12) 0xF 15, channel (js_sar h 8) 0xF 15,
              channel (js_sar h 4) 0xF 15, channel h 0xF 15)
      else if num_le_c hex (IZR 0xFFFFFF) then (* 24-bit RGB *)
        Some (channel (js_sar h 16) 0xFF 255, channel (js_sar h 8) 0xFF 255,
              channel h 0xFF 255, Fin 1)
      else if num_le_c hex (IZR 0xFFFFFFFF) then (* 32-bit RGBA *)
        Some (channel (js_sar h 24) 0xFF 255, channel (js_sar h 16) 0xFF 255,
              channel (js_sar h 8) 0xFF 255, channel h 0xFF 255)
      else None in
    match channels with
    | Some (red, green, blue, opacity) => constructor (rgba_options red green blue opacity)
    | None => Throw (Error "Invalid hex value")
    end.

(** [String.prototype.trim] on byte strings: the white space and line
    terminators among the code units 0 to 255 (tab, line feed, vertical tab,
    form feed, carriage return, space, no-break space). *)
Definition is_trim_space (c : ascii) : bool :=
  existsb (Nat.eqb (nat_of_ascii c)) [9; 10; 11; 12; 13; 32; 160]%nat.

Fixpoint drop_spaces (cs : list ascii) : list ascii :=
  match cs with
  | c :: rest => if is_trim_space c then drop_spaces rest else cs
  | [] => []
  end.

Definition trim (s : string) : string :=
  string_of_list_ascii
    (rev (drop_spaces (rev (drop_spaces (list_ascii_of_string s))))).

(** [[...s].map(x => x + x).join('')]. *)
Fixpoint double_chars (s : string) : string :=
  match s with
  | EmptyString => EmptyString
  | String c rest => String c (String c (double_chars rest))
  end.

(** The value of a hexadecimal digit, either case. *)
Definition hex_digit (c : ascii) : option Z :=
  let n := Z.of_nat (nat_of_ascii c) in
  if andb (Z.leb 48 n) (Z.leb n 57) then Some (n - 48)%Z
  else if andb (Z.leb 97 n) (Z.leb n 102) then Some (n - 87)%Z
  else if andb (Z.leb 65 n) (Z.leb n 70) then Some (n - 55)%Z
  else None.

Definition is_hex_digit (c : ascii) : bool :=
  match hex_digit c with Some _ => true | None => false end.

(** [/^[\da-f]{6}([\da-f]{2})?$/i.test(s)]. *)
Definition hex_format_ok (s : string) : bool :=
  forallb is_hex_digit (list_ascii_of_string s)
  && (Nat.eqb (String.length s) 6 || Nat.eqb (String.length s) 8).

(** [Number.parseInt(s, 16)] on a string of hexadecimal digits. *)
Definition parseInt16 (s : string) : Z :=
  fold_left (fun acc c => match hex_digit c with
                          | Some d => (acc * 16 + d)%Z
                          | None => acc
                          end)
    (list_ascii_of_string s) 0%Z.

Definition fromHexString (hex : string) : result t :=
  let s := trim hex in
  let withoutHash := match s with
                     | String "#" rest => rest
                     | _ => s
                     end in
  (* Convert 3/4 character hex to 6/8 character hex *)
  let expanded := if Nat.eqb (String.length withoutHash) 3 || Nat.eqb (String.length withoutHash) 4
                  then double_chars withoutHash else withoutHash in
  if negb (hex_format_ok expanded) then Throw (Error "Invalid hex color format")
  else fromHexNumber (Fin (IZR (parseInt16 expanded))).

End Color.

(** ** [JSON.stringify] followed by [JSON.parse]

    [serialize] hands a value to [JSON.stringify], and the round trip reads
    the text back with [JSON.parse].  Their composition is modelled on
    values: finite numbers, strings, booleans and [null] come back unchanged,
    NaN and the infinities come back as [null], an [undefined] property is
    left out and an [undefined] array element comes back as [null]. *)
Fixpoint json_reparse (v : jsval) : jsval :=
  match v with
  | JNumber (Fin r) => JNumber (Fin r)
  | JNumber _ => JNull
  | JArray items =>
      JArray (map (fun x => match x with JUndefined => JNull | _ => json_reparse x end) items)
  | JObject props =>
      JObject ((fix go (ps : list (string * jsval)) : list (string * jsval) :=
                  match ps with
                  | [] => []
                  | (k, JUndefined) :: rest => go rest
                  | (k, x) :: rest => (k, json_reparse x) :: go rest
                  end) props)
  | x => x
  end.

(** ** Validation of a parsed document *)

Definition validateColorComponent (color : jsval) : result unit :=
  let* components := get color "components" in
  match components with
  | JArray items =>
      if negb (Nat.eqb (length items) 3) && negb (Nat.eqb (length items) 4)
      then Throw (Error "Components must have 3 or 4 values")
      else
        for_each (fun component =>
                    match component with
                    | JNumber n =>
                        if num_lt_c n 0 then Throw (Error "Component values must be numbers")
                        else Ok tt
                    | _ => Throw (Error "Component values must be numbers")
                    end) items
  | _ => Throw (TypeError "Components must be an array")
  end.

Definition validatePalette (palette : jsval) : result unit :=
  let* colors := get palette "colors" in
  match colors with
  | JArray items => for_each validateColorComponent items
  | _ => Throw (TypeError "Colors must be an array")
  end.

(** ** [class ColorPalette] *)

Module ColorPalette.

Record t : Type := mk {
  name : jsval;
  colors : list Color.t
}.

(** [new ColorPalette({colors, name})].  The colours are given as a list of
    [Color] instances, so the two type checks of the constructor (an array,
    whose elements are instances of [Color]) hold by typing; the constructor
    keeps a copy of the list. *)
Definition constructor (colors : list Color.t) (name : jsval) : result t :=
  Ok {| name := name; colors := colors |}.

Definition createColor (options : jsval) : result Color.t := Color.constructor options.

(** The [colors] argument of [new ColorPalette({colors, name})] as the
    constructor receives it: a [Color] instance, another JavaScript value,
    or an array of such arguments. *)
Inductive arg : Type :=
| AColor (c : Color.t)
| AValue (v : jsval)
| AArray (items : list arg).

(** [new ColorPalette({colors = [], name})] with its two checks: [colors]
    must be an array ([Array.isArray]), and each element an instance of
    [Color]; the palette keeps a copy ([[...colors]]) of the instances. *)
Definition construct (colors : arg) (name : jsval) : result t :=
  let colors := match colors with AValue JUndefined => AArray [] | c => c end in
  match colors with
  | AArray items =>
      let* _ := for_each (fun color =>
                            match color with
                            | AColor _ => Ok tt
                            | _ => Throw (TypeError "Each color must be an instance of Color")
                            end) items in
      let* cs := map_result (fun color =>
                               match color with
                               | AColor c => Ok c
                               | _ => Throw (TypeError "Each color must be an instance of Color")
                               end) items in
      constructor cs name
  | AValue (JArray []) => constructor [] name
  | AValue (JArray (_ :: _)) => Throw (TypeError "Each color must be an instance of Color")
  | _ => Throw (TypeError "The `colors` must be an array")
  end.

(** The callback of [parsed.colors.map(color => ...)] in
    [ColorPalette.deserialize]. *)
Definition parseColor (color : jsval) : result Color.t :=
  let* components := get color "components" in
  let cs := match components with JArray cs => cs | _ => [] end in
  let red := nth 0 cs JUndefined in
  let green := nth 1 cs JUndefined in
  let blue := nth 2 cs JUndefined in
  let opacity := with_default (nth 3 cs JUndefined) (JNumber (Fin 1)) in
  let* name := get color "name" in
  Color.constructor
    (JObject [("name", name);
              ("red", JNumber (roundToFourDecimals (to_number red)));
              ("green", JNumber (roundToFourDecimals (to_number green)));
              ("blue", JNumber (roundToFourDecimals (to_number blue)));
              ("opacity", JNumber (roundToFourDecimals (to_number opacity)));
              ("isLinear", JBool true)]).

(** [ColorPalette.deserialize] after [JSON.parse]: the steps applied to the
    parsed value. *)
Definition fromParsed (parsed : jsval) : result t :=
  let* _ := validatePalette parsed in
  let* colors_v := get parsed "colors" in
  let items := match colors_v with JArray items => items | _ => [] end in
  let* colors := map_result parseColor items in
  let* name := get parsed "name" in
  constructor colors name.

Definition toJSON (p : t) : jsval :=
  JObject ((if truthy (name p) then [("name", name p)] else [])
           ++ [("colors", JArray (map Color.toJSON (colors p)))])%list.

(** [deserialize(palette.serialize())]: [serialize] is
    [JSON.stringify(this, undefined, '\t')], which calls [toJSON] on the
    palette and on each colour, and [deserialize] starts with [JSON.parse]. *)
Definition roundtrip (p : t) : result t := fromParsed (json_reparse (toJSON p)).

End ColorPalette.

(** ** [JSON.parse]

    A parser for JSON texts over byte strings, with V8's messages: an
    unexpected character gives [Unexpected token 'c', "text" is not valid
    JSON] and a premature end gives [Unexpected end of JSON input] (V8's
    variants of the first message for particular positions, and its
    shortening of long texts, are not modelled).  A [\u] escape denotes a
    code unit, which must lie in the byte range here. *)
Module JSON.

Definition quote : string := String (ascii_of_nat 34) EmptyString.

Section Parser.

Variable src : string.

Definition unexpected {A} (cs : list ascii) : result A :=
  match cs with
  | [] => Throw (SyntaxError "Unexpected end of JSON input")
  | c :: _ =>
      Throw (SyntaxError ("Unexpected token '" ++ String c EmptyString ++ "', "
                          ++ quote ++ src ++ quote ++ " is not valid JSON"))
  end.

Definition is_ws (c : ascii) : bool :=
  existsb (Nat.eqb (nat_of_ascii c)) [9; 10; 13; 32]%nat.

Fixpoint skip_ws (cs : list ascii) : list ascii :=
  match cs with
  | c :: rest => if is_ws c then skip_ws rest else cs
  | [] => []
  end.

Definition is_digit (c : ascii) : bool :=
  Nat.leb 48 (nat_of_ascii c) && Nat.leb (nat_of_ascii c) 57.

Definition digit_value (c : ascii) : Z := (Z.of_nat (nat_of_ascii c) - 48)%Z.

(** A run of digits: its value (appended to [acc]), its length and the rest. *)
Fixpoint digits (acc : Z) (n : nat) (cs : list ascii) : Z * nat * list ascii :=
  match cs with
  | c :: rest => if is_digit c then digits (acc * 10 + digit_value c)%Z (S n) rest
                 else (acc, n, cs)
  | [] => (acc, n, cs)
  end.

(** [m * 10 ^ e]. *)
Definition scale (m : Z) (e : Z) : R :=
  if Z.leb 0 e then IZR (m * 10 ^ e) else IZR m / IZR (10 ^ (- e)).

(** A number, starting after an optional minus sign. *)
Definition parse_number (neg : bool) (cs : list ascii) : result (jsval * list ascii) :=
  let int_part :=
    match cs with
    | "0"%char :: rest => Ok (0%Z, rest)
    | c :: _ => if is_digit c then let '(m, _, rest) := digits 0 0 cs in Ok (m, rest)
                else unexpected cs
    | [] => unexpected cs
    end in
  let* ir := int_part in
  let '(m0, cs1) := ir in
  let* fr :=
    match cs1 with
    | "."%char :: rest =>
        let '(m, n, rest') := digits m0 0 rest in
        if Nat.eqb n 0 then unexpected rest else Ok (m, Z.of_nat n, rest')
    | _ => Ok (m0, 0%Z, cs1)
    end in
  let '(m1, nfrac, cs2) := fr in
  let* er :=
    match cs2 with
    | e :: rest =>
        if orb (Ascii.eqb e "e") (Ascii.eqb e "E") then
          let '(sgn, rest1) := match rest with
                               | "-"%char :: r => (-1, r)
                               | "+"%char :: r => (1, r)
                               | r => (1, r)
                               end%Z in
          let '(x, n, rest2) := digits 0 0 rest1 in
          if Nat.eqb n 0 then unexpected rest1 else Ok (sgn * x, rest2)%Z
        else Ok (0%Z, cs2)
    | [] => Ok (0%Z, cs2)
    end in
  let '(ex, cs3) := er in
  let v := scale m1 (ex - nfrac)%Z in
  Ok (JNumber (Fin (if neg then - v else v)), cs3).

(** The four hexadecimal digits of a [\u] escape. *)
Definition hex4 (cs : list ascii) : option (Z * list ascii) :=
  match cs with
  | a :: b :: c :: d :: rest =>
      match Color.hex_digit a, Color.hex_digit b, Color.hex_digit c, Color.hex_digit d with
      | Some x, Some y, Some z, Some w => Some (((x * 16 + y) * 16 + z) * 16 + w, rest)%Z
      | _, _, _, _ => None
      end
  | _ => None
  end.

(** The single-character escapes: quote, backslash, slash, b, f, n, r, t. *)
Definition escape (e : ascii) : option ascii :=
  match find (fun p => Nat.eqb (fst p) (nat_of_ascii e))
          [(34, 34); (92, 92); (47, 47); (98, 8); (102, 12); (110, 10); (114, 13); (116, 9)]%nat with
  | Some (_, k) => Some (ascii_of_nat k)
  | None => None
  end.

(** The body of a string literal, after its opening quote. *)
Fixpoint parse_chars (fuel : nat) (acc : list ascii) (cs : list ascii)
  : result (string * list ascii) :=
  match fuel with
  | O => unexpected []
  | S fuel =>
      match cs with
      | [] => unexpected cs
      | c :: rest =>
          if Nat.eqb (nat_of_ascii c) 34 then Ok (string_of_list_ascii (rev acc), rest)
          else if Nat.ltb (nat_of_ascii c) 32 then unexpected cs
          else if Nat.eqb (nat_of_ascii c) 92 then
            match rest with
            | [] => unexpected rest
            | e :: rest' =>
                if Ascii.eqb e "u" then
                  match hex4 rest' with
                  | Some (u, rest'') =>
                      if Z.ltb u 256 then parse_chars fuel (ascii_of_N (Z.to_N u) :: acc) rest''
                      else unexpected rest'
                  | None => unexpected rest'
                  end
                else
                  match escape e with
                  | Some k => parse_chars fuel (k :: acc) rest'
                  | None => unexpected rest
                  end
            end
          else parse_chars fuel (c :: acc) rest
      end
  end.

(** The characters of a literal ([true], [false], [null]). *)
Fixpoint expect (word : list ascii) (cs : list ascii) : result (list ascii) :=
  match word, cs with
  | [], _ => Ok cs
  | w :: ws, c :: rest => if Ascii.eqb w c then expect ws rest else unexpected cs
  | _ :: _, [] => unexpected cs
  end.

Fixpoint parse_value (fuel : nat) (cs : list ascii) : result (jsval * list ascii) :=
  match fuel with
  | O => unexpected []
  | S fuel =>
      match skip_ws cs with
      | [] => unexpected []
      | (c :: rest) as cs' =>
          if Ascii.eqb c "{" then
            match skip_ws rest with
            | "}"%char :: rest' => Ok (JObject [], rest')
            | _ => parse_members fuel [] rest
            end
          else if Ascii.eqb c "[" then
            match skip_ws rest with
            | "]"%char :: rest' => Ok (JArray [], rest')
            | _ => parse_elements fuel [] rest
            end
          else if Nat.eqb (nat_of_ascii c) 34 then
            let* sr := parse_chars fuel [] rest in
            let '(s, rest') := sr in Ok (JString s, rest')
          else if Ascii.eqb c "t" then
            let* rest' := expect (list_ascii_of_string "rue") rest in Ok (JBool true, rest')
          else if Ascii.eqb c "f" then
            let* rest' := expect (list_ascii_of_string "alse") rest in Ok (JBool false, rest')
          else if Ascii.eqb c "n" then
            let* rest' := expect (list_ascii_of_string "ull") rest in Ok (JNull, rest')
          else if Ascii.eqb c "-" then parse_number true rest
          else if is_digit c then parse_number false cs'
          else unexpected cs'
      end
  end

(** Array elements after [[] (or after a comma); [acc] holds the elements
    read so far, last first. *)
with parse_elements (fuel : nat) (acc : list jsval) (cs : list ascii)
  : result (jsval * list ascii) :=
  match fuel with
  | O => unexpected []
  | S fuel =>
      let* vr := parse_value fuel cs in
      let '(v, rest) := vr in
      match skip_ws rest with
      | ","%char :: rest' => parse_elements fuel (v :: acc) rest'
      | "]"%char :: rest' => Ok (JArray (rev (v :: acc)), rest')
      | cs' => unexpected cs'
      end
  end

(** Object members after [{] (or after a comma). *)
with parse_members (fuel : nat) (acc : list (string * jsval)) (cs : list ascii)
  : result (jsval * list ascii) :=
  match fuel with
  | O => unexpected []
  | S fuel =>
      match skip_ws cs with
      | c :: rest =>
          if Nat.eqb (nat_of_ascii c) 34 then
            let* kr := parse_chars fuel [] rest in
            let '(k, rest1) := kr in
            match skip_ws rest1 with
            | ":"%char :: rest2 =>
                let* vr := parse_value fuel rest2 in
                let '(v, rest3) := vr in
                match skip_ws rest3 with
                | ","%char :: rest4 => parse_members fuel ((k, v) :: acc) rest4
                | "}"%char :: rest4 => Ok (JObject (rev ((k, v) :: acc)), rest4)
                | cs' => unexpected cs'
                end
            | cs' => unexpected cs'
            end
          else unexpected (c :: rest)
      | [] => unexpected []
      end
  end.

End Parser.

(** [JSON.parse(text)]: one value, then only white space.  Each call of the
    parser consumes a character, so the fuel never runs out. *)
Definition parse (text : string) : result jsval :=
  let cs := list_ascii_of_string text in
  let* vr := parse_value text (S (length cs)) cs in
  let '(v, rest) := vr in
  match skip_ws rest with
  | [] => Ok v
  | cs' => unexpected text cs'
  end.

End JSON.

(** [ColorPalette.deserialize(data)]. *)
Definition deserialize (data : string) : result ColorPalette.t :=
  let* parsed := JSON.parse data in
  ColorPalette.fromParsed parsed.

(** JSON texts are written in this file with ['] for the double quote. *)
Definition json_text (s : string) : string :=
  string_of_list_ascii
    (map (fun c => if Ascii.eqb c "'"%char then ascii_of_nat 34 else c) (list_ascii_of_string s)).

(** Whether [needle] occurs in [message]. *)
Definition mentions (message needle : string) : bool :=
  match String.index 0 needle message with Some _ => true | None => false end.

(** * The hexadecimal notations as the specification describes them

    These follow the words of the specification (section 4.1), to be compared
    with [Color.fromHexNumber] and [Color.fromHexString]; each returns the
    non-linear red, green, blue and opacity, or [None] for an error. *)
Module HexSpec.

(** The [i]-th hexadecimal digit of [z], counted from the least
    significant, and the [i]-th byte. *)
Definition nibble (z : Z) (i : Z) : R := IZR ((z / 16 ^ i) mod 16).
Definition byte (z : Z) (i : Z) : R := IZR ((z / 256 ^ i) mod 256).

(** Numeric form: a non-negative integer, dispatched by magnitude. *)
Definition fromHexNumber (z : Z) : option (R * R * R * R) :=
  if Z.ltb z 0 then None
  else if Z.leb z 0xFFF then Some (nibble z 2 / 15, nibble z 1 / 15, nibble z 0 / 15, 1)
  else if Z.leb z 0xFFFF then
    Some (nibble z 3 / 15, nibble z 2 / 15, nibble z 1 / 15, nibble z 0 / 15)
  else if Z.leb z 0xFFFFFF then Some (byte z 2 / 255, byte z 1 / 255, byte z 0 / 255, 1)
  else if Z.leb z 0xFFFFFFFF then
    Some (byte z 3 / 255, byte z 2 / 255, byte z 1 / 255, byte z 0 / 255)
  else None.

(** The numbers the numeric form rejects: a negative number, a number that
    is not an integer (NaN and the infinities included), or one above
    [0xFFFFFFFF]. *)
Definition invalid_hex_value (h : num) : Prop :=
  match h with
  | Fin r => (~ exists z, r = IZR z) \/ r < 0 \/ IZR 0xFFFFFFFF < r
  | _ => True
  end.

(** A byte written as two hexadecimal digits. *)
Definition byte_of (hi lo : Z) : R := IZR (hi * 16 + lo) / 255.

(** String form: an optional leading [#], then exactly 3, 4, 6 or 8
    hexadecimal digits of either case; with 3 or 4 digits each digit is
    doubled to form a byte. *)
Definition fromHexString (s : string) : option (R * R * R * R) :=
  let body := match s with String "#" rest => rest | _ => s end in
  let ds := map Color.hex_digit (list_ascii_of_string body) in
  match ds with
  | [Some r; Some g; Some b] => Some (byte_of r r, byte_of g g, byte_of b b, 1)
  | [Some r; Some g; Some b; Some a] => Some (byte_of r r, byte_of g g, byte_of b b, byte_of a a)
  | [Some r1; Some r2; Some g1; Some g2; Some b1; Some b2] =>
      Some (byte_of r1 r2, byte_of g1 g2, byte_of b1 b2, 1)
  | [Some r1; Some r2; Some g1; Some g2; Some b1; Some b2; Some a1; Some a2] =>
      Some (byte_of r1 r2, byte_of g1 g2, byte_of b1 b2, byte_of a1 a2)
  | _ => None
  end.

End HexSpec.

(** ** Notions used in the statements of the further properties *)

(** [options[k]] for the options object of [new Color(options)]. *)
Definition prop (v : jsval) (k : string) : jsval :=
  match v with JObject ps => lookup k ps | _ => JUndefined end.

(** [typeof v === 'number']. *)
Definition is_number (v : jsval) : bool :=
  match v with JNumber _ => true | _ => false end.

(** A colour whose stored linear channels and opacity are finite and lie
    in [[0,1]]. *)
Definition in_unit (c : Color.t) : Prop :=
  exists r g b a,
    Color.linearRed c = Fin r /\ Color.linearGreen c = Fin g /\ Color.linearBlue c = Fin b
    /\ Color.opacity c = Fin a
    /\ 0 <= r <= 1 /\ 0 <= g <= 1 /\ 0 <= b <= 1 /\ 0 <= a <= 1.

(** An ASCII letter in lower case; other characters are left as they are. *)
Definition ascii_to_lower (c : ascii) : ascii :=
  let n := nat_of_ascii c in
  if andb (Nat.leb 65 n) (Nat.leb n 90) then ascii_of_nat (n + 32) else c.

Definition string_to_lower (s : string) : string :=
  string_of_list_ascii (map ascii_to_lower (list_ascii_of_string s)).

(** How [deserialize] decodes one validated entry of [colors] into the
    colour [c]: the three or four component values are taken as linear
    values, rounded to four decimals twice, once by [deserialize] and once
    by the constructor (the opacity defaulting to 1 and clamped between the
    two roundings), and the name is the entry's [name]. *)
Definition decoded (entry : jsval) (c : Color.t) : Prop :=
  exists items nr ng nb na,
    get entry "components" = Ok (JArray items)
    /\ (items = [JNumber nr; JNumber ng; JNumber nb] /\ na = Fin 1
        \/ items = [JNumber nr; JNumber ng; JNumber nb; JNumber na])
    /\ Color.name c = prop entry "name"
    /\ Color.linearRed c = roundToFourDecimals (roundToFourDecimals nr)
    /\ Color.linearGreen c = roundToFourDecimals (roundToFourDecimals ng)
    /\ Color.linearBlue c = roundToFourDecimals (roundToFourDecimals nb)
    /\ Color.opacity c = roundToFourDecimals (clampOpacity (roundToFourDecimals na)).

(** * Lemmas about the numeric helpers *)

(** [roundToFourDecimals] on a finite value. *)
Definition round4R (x : R) : R := IZR (Int_part (x * 10000 + / 2)) / 10000.

(** Resolves the decisions on reals that the embedding makes. *)
Ltac decide_R :=
  repeat match goal with
  | |- context [Rle_dec ?a ?b] => destruct (Rle_dec a b); try lra
  | |- context [Rlt_dec ?a ?b] => destruct (Rlt_dec a b); try lra
  | |- context [Req_EM_T ?a ?b] => destruct (Req_EM_T a b); try lra
  | H : context [Rle_dec ?a ?b] |- _ => destruct (Rle_dec a b); try lra
  | H : context [Rlt_dec ?a ?b] |- _ => destruct (Rlt_dec a b); try lra
  end.

Lemma roundToFourDecimals_Fin (x : R) :
  roundToFourDecimals (Fin x) = Fin (round4R x).
Proof. reflexivity. Qed.

Lemma Int_part_unique (z : Z) (x : R) :
  IZR z <= x < IZR z + 1 -> Int_part x = z.
Proof. intros [H1 H2]. symmetry. apply Int_part_spec. lra. Qed.

Lemma round4R_spec (z : Z) (x : R) :
  IZR z <= x * 10000 + / 2 < IZR z + 1 -> round4R x = IZR z / 10000.
Proof. intros H. unfold round4R. rewrite (Int_part_unique z); [reflexivity | exact H]. Qed.

Lemma round4R_IZR (k : Z) : round4R (IZR k / 10000) = IZR k / 10000.
Proof.
  apply round4R_spec.
  replace (IZR k / 10000 * 10000 + / 2) with (IZR k + / 2) by field. lra.
Qed.

Lemma round4R_idem (x : R) : round4R (round4R x) = round4R x.
Proof. unfold round4R at 2. apply round4R_IZR. Qed.

Lemma Int_part_bounds (r : R) : IZR (Int_part r) <= r < IZR (Int_part r) + 1.
Proof. destruct (base_Int_part r). lra. Qed.

Lemma round4R_nonneg (x : R) : 0 <= x -> 0 <= round4R x.
Proof.
  intros Hx. unfold round4R.
  pose proof (Int_part_bounds (x * 10000 + / 2)) as [H1 H2].
  assert (0 <= Int_part (x * 10000 + / 2))%Z.
  { apply le_IZR. assert (-1 < IZR (Int_part (x * 10000 + / 2))) by lra.
    apply lt_IZR in H. apply IZR_le. lia. }
  apply IZR_le in H. unfold Rdiv. apply Rmult_le_pos; lra.
Qed.

Lemma round4R_le_1 (x : R) : x <= 1 -> round4R x <= 1.
Proof.
  intros Hx. unfold round4R.
  pose proof (Int_part_bounds (x * 10000 + / 2)) as [H1 H2].
  assert (IZR (Int_part (x * 10000 + / 2)) <= 10000).
  { assert (IZR (Int_part (x * 10000 + / 2)) < IZR 10001) by lra.
    apply lt_IZR in H. apply IZR_le. lia. }
  unfold Rdiv. apply (Rmult_le_reg_r 10000); [lra|].
  rewrite Rmult_assoc, Rinv_l by lra. lra.
Qed.

Lemma num_neq_c_true (x : num) (c : R) : num_neq_c x c = true <-> x <> Fin c.
Proof.
  destruct x as [a| | |]; simpl; try (split; [discriminate | reflexivity]);
    try (split; [intros _; discriminate | reflexivity]).
  destruct (Req_EM_T a c) as [E|E]; split; intros H.
  - discriminate.
  - subst. contradiction.
  - intros F. injection F. contradiction.
  - reflexivity.
Qed.

Lemma clampOpacity_Fin (a : R) :
  clampOpacity (Fin a) = Fin (Rmax 0 (Rmin 1 a)).
Proof. reflexivity. Qed.

Lemma clampOpacity_in (a : R) : 0 <= a <= 1 -> clampOpacity (Fin a) = Fin a.
Proof.
  intros H. rewrite clampOpacity_Fin. f_equal.
  rewrite Rmin_right by lra. rewrite Rmax_right by lra. reflexivity.
Qed.

(** The options object [{name, red, green, blue, opacity, isLinear}]. *)
Definition color_options (name : jsval) (red green blue opacity : num) (isLinear : bool) : jsval :=
  JObject [("name", name); ("red", JNumber red); ("green", JNumber green);
           ("blue", JNumber blue); ("opacity", JNumber opacity); ("isLinear", JBool isLinear)].

Lemma constructor_color_options name r g b a lin :
  Color.constructor (color_options name r g b a lin) =
  Ok (Color.mk name
        (roundToFourDecimals (if lin then r else sRGBToLinear r))
        (roundToFourDecimals (if lin then g else sRGBToLinear g))
        (roundToFourDecimals (if lin then b else sRGBToLinear b))
        (roundToFourDecimals (clampOpacity a))).
Proof. destruct lin; reflexivity. Qed.

Lemma constructor_rgba_options r g b a :
  Color.constructor (Color.rgba_options r g b a) =
  Color.constructor (color_options JUndefined r g b a false).
Proof. reflexivity. Qed.

Lemma sRGBToLinear_low (a : R) : a <= 0.04045 -> sRGBToLinear (Fin a) = Fin (a / 12.92).
Proof. intros H. unfold sRGBToLinear, num_le_c. decide_R. reflexivity. Qed.

Lemma sRGBToLinear_nonfinite (x : num) : ~ is_finite x -> sRGBToLinear x = x.
Proof. destruct x; simpl; intros H; [contradiction H; exact I | reflexivity ..]. Qed.

Lemma roundToFourDecimals_nonfinite (x : num) : ~ is_finite x -> roundToFourDecimals x = x.
Proof. destruct x; simpl; intros H; [contradiction H; exact I | reflexivity ..]. Qed.

Definition black : jsval := color_options JUndefined (Fin 0) (Fin 0) (Fin 0) (Fin 1) false.

(** ** The two branches of each transfer function *)

Lemma sRGBToLinear_high (a : R) :
  0.04045 < a -> sRGBToLinear (Fin a) = Fin (Rpower ((a + 0.055) / 1.055) 2.4).
Proof. intros H. unfold sRGBToLinear, num_le_c. decide_R. simpl. decide_R. reflexivity. Qed.

Lemma linearToSRGB_low (a : R) : a <= 0.0031308 -> linearToSRGB (Fin a) = Fin (a * 12.92).
Proof. intros H. unfold linearToSRGB, num_le_c. decide_R. reflexivity. Qed.

Lemma linearToSRGB_high (a : R) :
  0.0031308 < a -> linearToSRGB (Fin a) = Fin (Rpower a (1 / 2.4) * 1.055 + - 0.055).
Proof. intros H. unfold linearToSRGB, num_le_c. decide_R. simpl. decide_R. reflexivity. Qed.

Lemma Rpower_inv_pow (x : R) : 0 < x -> Rpower x (1 / 2.4) ^ 12 = x ^ 5.
Proof.
  intros Hx. rewrite <- Rpower_pow by (apply exp_pos).
  rewrite Rpower_mult, <- Rpower_pow by exact Hx. f_equal. simpl. lra.
Qed.

Lemma Rpower_pow_5 (a : R) : 0 < a -> Rpower a 2.4 ^ 5 = a ^ 12.
Proof.
  intros Ha. rewrite <- Rpower_pow by (apply exp_pos).
  rewrite Rpower_mult, <- Rpower_pow by exact Ha. f_equal. simpl. lra.
Qed.

Lemma Rpower_pow_cancel (a : R) : 0 < a -> Rpower (Rpower a 2.4) (1 / 2.4) = a.
Proof. intros Ha. rewrite Rpower_mult. replace (2.4 * (1 / 2.4)) with 1 by lra. apply Rpower_1, Ha. Qed.

Lemma Rpower_cancel_pow (a : R) : 0 < a -> Rpower (Rpower a (1 / 2.4)) 2.4 = a.
Proof. intros Ha. rewrite Rpower_mult. replace (1 / 2.4 * 2.4) with 1 by lra. apply Rpower_1, Ha. Qed.

(** Comparisons through an even power, for non-negative reals. *)
Lemma pow_lt_reverse (x y : R) (n : nat) : 0 <= x -> 0 <= y -> x ^ n < y ^ n -> x < y.
Proof.
  intros Hx Hy H. destruct (Rlt_le_dec x y) as [|Hle]; [assumption|].
  exfalso. pose proof (pow_incr y x n (conj Hy Hle)). lra.
Qed.

(** The value of the power branch of [sRGBToLinear] at the threshold 0.04045. *)
Definition a0 : R := (0.04045 + 0.055) / 1.055.

Lemma a0_pow_above_threshold : 0.0031308 < Rpower a0 2.4.
Proof.
  apply (pow_lt_reverse _ _ 5); [lra | left; apply exp_pos |].
  rewrite Rpower_pow_5 by (unfold a0; lra). unfold a0. lra.
Qed.

(** ** Integers and the bit operators *)

Lemma Int_part_IZR (z : Z) : Int_part (IZR z) = z.
Proof. apply Int_part_unique. lra. Qed.

Lemma Number_isInteger_Fin (r : R) :
  Color.Number_isInteger (Fin r) = true <-> exists z, r = IZR z.
Proof.
  simpl. destruct (Req_EM_T (IZR (Int_part r)) r) as [E|E]; split; intros H.
  - exists (Int_part r). symmetry. exact E.
  - reflexivity.
  - discriminate.
  - destruct H as [z ->]. exfalso. apply E. rewrite Int_part_IZR. reflexivity.
Qed.

Lemma num_le_c_IZR (z w : Z) : num_le_c (Fin (IZR z)) (IZR w) = Z.leb z w.
Proof.
  simpl. destruct (Rle_dec (IZR z) (IZR w)) as [H|H]; destruct (Z.leb_spec z w) as [H'|H'];
    try reflexivity.
  - apply le_IZR in H. lia.
  - apply IZR_le in H'. contradiction.
Qed.

Lemma num_lt_c_IZR (z : Z) : num_lt_c (Fin (IZR z)) 0 = Z.ltb z 0.
Proof.
  simpl. destruct (Rlt_dec (IZR z) 0) as [H|H]; destruct (Z.ltb_spec z 0) as [H'|H'];
    try reflexivity.
  - apply lt_IZR in H. lia.
  - apply IZR_lt in H'. contradiction.
Qed.

Lemma toInt32_shift (z : Z) : exists t, Color.toInt32 z = (z + t * 2 ^ 32)%Z.
Proof.
  unfold Color.toInt32. pose proof (Z.div_mod z (2 ^ 32) ltac:(lia)) as Hd.
  destruct (Z.leb (2 ^ 31) (z mod 2 ^ 32)).
  - exists (- (z / 2 ^ 32) - 1)%Z. lia.
  - exists (- (z / 2 ^ 32))%Z. lia.
Qed.

Lemma mod_pow2_shift (a t : Z) (n m : Z) :
  (0 <= n <= m)%Z -> ((a + t * 2 ^ m) mod 2 ^ n = a mod 2 ^ n)%Z.
Proof.
  intros H. replace m with ((m - n) + n)%Z by lia.
  rewrite Z.pow_add_r by lia. rewrite Z.mul_assoc. apply Z.mod_add.
  apply Z.pow_nonzero; lia.
Qed.

Lemma land_toInt32_ones (y n : Z) :
  (0 <= n <= 31)%Z -> Z.land (Color.toInt32 y) (Color.toInt32 (Z.ones n)) = (y mod 2 ^ n)%Z.
Proof.
  intros Hn.
  assert (Hones : Color.toInt32 (Z.ones n) = Z.ones n).
  { unfold Color.toInt32. rewrite Z.ones_equiv.
    assert (2 ^ n <= 2 ^ 31)%Z by (apply Z.pow_le_mono_r; lia).
    assert (0 < 2 ^ n)%Z by (apply Z.pow_pos_nonneg; lia).
    rewrite Z.mod_small by lia.
    destruct (Z.leb_spec (2 ^ 31) (Z.pred (2 ^ n))); lia. }
  rewrite Hones, Z.land_ones by lia.
  destruct (toInt32_shift y) as [t ->]. apply mod_pow2_shift. lia.
Qed.

Lemma js_and_sar (z k n : Z) :
  (0 <= k)%Z -> (0 < n)%Z -> (k + n <= 32)%Z -> (n <= 31)%Z ->
  Color.js_and (Color.js_sar z k) (Z.ones n) = ((z / 2 ^ k) mod 2 ^ n)%Z.
Proof.
  intros Hk Hn Hkn Hn31. unfold Color.js_and, Color.js_sar.
  rewrite land_toInt32_ones by lia. rewrite (Z.mod_small k 32) by lia.
  rewrite Z.shiftr_div_pow2 by lia.
  destruct (toInt32_shift z) as [t ->].
  replace (t * 2 ^ 32)%Z with ((t * 2 ^ (32 - k)) * 2 ^ k)%Z.
  2:{ rewrite <- Z.mul_assoc, <- Z.pow_add_r by lia. f_equal. f_equal. lia. }
  rewrite Z.div_add by (apply Z.pow_nonzero; lia).
  apply mod_pow2_shift. lia.
Qed.

Lemma js_and_noshift (z n : Z) :
  (0 < n <= 31)%Z -> Color.js_and z (Z.ones n) = (z mod 2 ^ n)%Z.
Proof. intros Hn. unfold Color.js_and. apply land_toInt32_ones. lia. Qed.

Lemma channel_nibble (z k i : Z) :
  (0 <= k <= 28)%Z -> k = (4 * i)%Z -> (0 <= i)%Z ->
  Color.channel (Color.js_sar z k) 0xF 15 = Fin (HexSpec.nibble z i / 15).
Proof.
  intros Hk -> Hi. unfold Color.channel, HexSpec.nibble.
  change 0xF%Z with (Z.ones 4). rewrite js_and_sar by lia.
  rewrite Z.pow_mul_r by lia. reflexivity.
Qed.

Lemma channel_byte (z k i : Z) :
  (0 <= k <= 24)%Z -> k = (8 * i)%Z -> (0 <= i)%Z ->
  Color.channel (Color.js_sar z k) 0xFF 255 = Fin (HexSpec.byte z i / 255).
Proof.
  intros Hk -> Hi. unfold Color.channel, HexSpec.byte.
  change 0xFF%Z with (Z.ones 8). rewrite js_and_sar by lia.
  rewrite Z.pow_mul_r by lia. reflexivity.
Qed.

Lemma channel_nibble0 (z : Z) : Color.channel z 0xF 15 = Fin (HexSpec.nibble z 0 / 15).
Proof.
  unfold Color.channel, HexSpec.nibble. change 0xF%Z with (Z.ones 4).
  rewrite js_and_noshift by lia. rewrite Z.pow_0_r, Z.div_1_r. reflexivity.
Qed.

Lemma channel_byte0 (z : Z) : Color.channel z 0xFF 255 = Fin (HexSpec.byte z 0 / 255).
Proof.
  unfold Color.channel, HexSpec.byte. change 0xFF%Z with (Z.ones 8).
  rewrite js_and_noshift by lia. rewrite Z.pow_0_r, Z.div_1_r. reflexivity.
Qed.

(** [Color.fromHexNumber] on a non-negative integer within 32 bits builds
    the colour whose channels [HexSpec.fromHexNumber] gives. *)
Lemma fromHexNumber_in_range (z : Z) :
  (0 <= z <= 0xFFFFFFFF)%Z ->
  exists r g b a,
    HexSpec.fromHexNumber z = Some (r, g, b, a)
    /\ Color.fromHexNumber (Fin (IZR z))
       = Color.constructor (Color.rgba_options (Fin r) (Fin g) (Fin b) (Fin a)).
Proof.
  intros Hz. unfold Color.fromHexNumber, HexSpec.fromHexNumber.
  assert (Hi : Color.Number_isInteger (Fin (IZR z)) = true)
    by (apply Number_isInteger_Fin; eauto).
  rewrite Hi, num_lt_c_IZR, Int_part_IZR, !num_le_c_IZR.
  destruct (Z.ltb_spec z 0); [lia|]. simpl negb; simpl orb. cbv zeta.
  destruct (Z.leb_spec z 0xFFF);
    [|destruct (Z.leb_spec z 0xFFFF);
      [|destruct (Z.leb_spec z 0xFFFFFF);
        [|destruct (Z.leb_spec z 0xFFFFFFFF); [|lia]]]];
    do 5 eexists;
    rewrite ?(channel_nibble z 12 3), ?(channel_nibble z 8 2), ?(channel_nibble z 4 1),
      ?(channel_byte z 24 3), ?(channel_byte z 16 2), ?(channel_byte z 8 1),
      ?channel_nibble0, ?channel_byte0 by lia;
    reflexivity.
Qed.

(** ** The round trip of a palette *)

(** A name that [toJSON] writes and [deserialize] reads back unchanged:
    absent, or a non-empty string. *)
Definition name_ok (v : jsval) : Prop :=
  v = JUndefined \/ exists s, v = JString s /\ s <> EmptyString.

(** A colour whose serialized form passes the validation of
    [deserialize]: finite non-negative linear channels, an opacity in
    [[0,1]] and a name as above.  The channels are also bounded by 1000: up
    to there no step of the round trip overflows, and rounding a value
    already rounded to four decimals gives it back also in double precision
    (the error of [x * 10000] stays far below 1/2), two effects that the
    exact arithmetic of [num] does not model. *)
Definition serializable (c : Color.t) : Prop :=
  exists r g b a,
    Color.linearRed c = Fin r /\ Color.linearGreen c = Fin g /\ Color.linearBlue c = Fin b
    /\ Color.opacity c = Fin a /\ 0 <= r <= 1000 /\ 0 <= g <= 1000 /\ 0 <= b <= 1000
    /\ 0 <= a <= 1
    /\ name_ok (Color.name c).

(** The colour with its stored values rounded to four decimals. *)
Definition round_color (c : Color.t) : Color.t :=
  Color.mk (Color.name c) (roundToFourDecimals (Color.linearRed c))
    (roundToFourDecimals (Color.linearGreen c)) (roundToFourDecimals (Color.linearBlue c))
    (roundToFourDecimals (Color.opacity c)).

Lemma round4R_1 : round4R 1 = 1.
Proof. rewrite (round4R_spec 10000) by lra. lra. Qed.

Lemma color_roundtrip (c : Color.t) :
  serializable c ->
  json_reparse (Color.toJSON c) = Color.toJSON c
  /\ validateColorComponent (Color.toJSON c) = Ok tt
  /\ ColorPalette.parseColor (Color.toJSON c) = Ok (round_color c).
Proof.
  intros (r & g & b & a & Hr & Hg & Hb & Ha & [Hr0 _] & [Hg0 _] & [Hb0 _] & Ha0 & Hn).
  destruct c as [n lr lg lb o]; cbn [Color.linearRed Color.linearGreen Color.linearBlue
    Color.opacity Color.name] in *; subst.
  pose proof (round4R_nonneg r Hr0). pose proof (round4R_nonneg g Hg0).
  pose proof (round4R_nonneg b Hb0). pose proof (round4R_nonneg a (proj1 Ha0)).
  pose proof (round4R_le_1 a (proj2 Ha0)).
  unfold Color.toJSON, round_color; cbn [Color.linearRed Color.linearGreen Color.linearBlue
    Color.opacity Color.name].
  rewrite !roundToFourDecimals_Fin.
  unfold num_neq_c.
  destruct Hn as [->|(s & -> & Hs)]; [|cbn [truthy]; rewrite (proj2 (String.eqb_neq s EmptyString) Hs)];
    (destruct (Req_EM_T a 1) as [->|Ha1]; [rewrite round4R_1 |]); cbn.
  all: decide_R.
  all: split; [reflexivity | split; [reflexivity |]].
  all: repeat change (IZR (Int_part (?x * 10000 + / 2)) / 10000) with (round4R x).
  all: rewrite ?round4R_1, !round4R_idem.
  all: rewrite Rmin_right, Rmax_right by lra.
  all: rewrite ?round4R_1, ?round4R_idem; reflexivity.
Qed.

Lemma colors_reparse (ps : list Color.t) :
  Forall serializable ps ->
  json_reparse (JArray (map Color.toJSON ps)) = JArray (map Color.toJSON ps).
Proof.
  induction 1 as [|c ps Hc _ IH]; [reflexivity|].
  cbn [json_reparse map] in *. injection IH as IH. rewrite IH. f_equal. f_equal.
  destruct (color_roundtrip c Hc) as [E _].
  assert (J : exists props, Color.toJSON c = JObject props) by (eexists; reflexivity).
  destruct J as [props J]. rewrite J in E |- *. exact E.
Qed.

Lemma colors_validate (ps : list Color.t) :
  Forall serializable ps -> for_each validateColorComponent (map Color.toJSON ps) = Ok tt.
Proof.
  induction 1 as [|c ps Hc _ IH]; [reflexivity|].
  cbn [for_each map]. destruct (color_roundtrip c Hc) as [_ [E _]]. rewrite E. exact IH.
Qed.

Lemma colors_parse (ps : list Color.t) :
  Forall serializable ps ->
  map_result ColorPalette.parseColor (map Color.toJSON ps) = Ok (map round_color ps).
Proof.
  induction 1 as [|c ps Hc _ IH]; [reflexivity|].
  cbn [map_result map]. destruct (color_roundtrip c Hc) as [_ [_ E]]. rewrite E, IH.
  reflexivity.
Qed.

Lemma palette_roundtrip_general (pname : jsval) (ps : list Color.t) :
  name_ok pname -> Forall serializable ps ->
  ColorPalette.roundtrip (ColorPalette.mk pname ps)
  = Ok (ColorPalette.mk pname (map round_color ps)).
Proof.
  intros Hn Hps.
  unfold ColorPalette.roundtrip, ColorPalette.toJSON; cbn [ColorPalette.name ColorPalette.colors].
  destruct Hn as [->|(s & -> & Hs)];
    [|cbn [truthy]; rewrite (proj2 (String.eqb_neq s EmptyString) Hs)]; cbn [app].
  - transitivity (ColorPalette.fromParsed
                    (JObject [("colors", json_reparse (JArray (map Color.toJSON ps)))]));
      [reflexivity|].
    rewrite (colors_reparse ps Hps).
    unfold ColorPalette.fromParsed, validatePalette; cbn [get lookup fold_left fst snd bind String.eqb Ascii.eqb Bool.eqb].
    rewrite (colors_validate ps Hps); cbn [bind].
    rewrite (colors_parse ps Hps); reflexivity.
  - transitivity (ColorPalette.fromParsed
                    (JObject [("name", JString s);
                              ("colors", json_reparse (JArray (map Color.toJSON ps)))]));
      [reflexivity|].
    rewrite (colors_reparse ps Hps).
    unfold ColorPalette.fromParsed, validatePalette;
      cbn [get lookup fold_left fst snd bind String.eqb Ascii.eqb Bool.eqb].
    rewrite (colors_validate ps Hps); cbn [bind].
    rewrite (colors_parse ps Hps); reflexivity.
Qed.

Lemma sRGBToLinear_unit (x : R) :
  0 <= x <= 1 -> exists y, sRGBToLinear (Fin x) = Fin y /\ 0 <= y <= 1.
Proof.
  intros Hx. destruct (Rle_dec x 0.04045) as [L|L].
  - exists (x / 12.92). rewrite sRGBToLinear_low by exact L. split; [reflexivity | lra].
  - exists (Rpower ((x + 0.055) / 1.055) 2.4). rewrite sRGBToLinear_high by lra.
    split; [reflexivity|]. split; [left; apply exp_pos|].
    destruct (Req_dec x 1) as [->|Hne].
    + replace ((1 + 0.055) / 1.055) with 1 by lra. unfold Rpower. rewrite ln_1.
      rewrite Rmult_0_r, exp_0. lra.
    + left. pose proof (Rlt_Rpower_l ((x + 0.055) / 1.055) 1 2.4 ltac:(lra)
                          ltac:(split; lra)) as H.
      unfold Rpower in H at 2. rewrite ln_1, Rmult_0_r, exp_0 in H. exact H.
Qed.

Lemma constructed_serializable (n : jsval) (r g b a : R) (c : Color.t) :
  name_ok n -> 0 <= r <= 1 -> 0 <= g <= 1 -> 0 <= b <= 1 ->
  Color.constructor (color_options n (Fin r) (Fin g) (Fin b) (Fin a) false) = Ok c ->
  serializable c /\ round_color c = c.
Proof.
  intros Hn Hr Hg Hb E. rewrite constructor_color_options in E. injection E as <-.
  destruct (sRGBToLinear_unit r Hr) as (x & -> & Hx).
  destruct (sRGBToLinear_unit g Hg) as (y & -> & Hy).
  destruct (sRGBToLinear_unit b Hb) as (z & -> & Hz).
  rewrite clampOpacity_Fin, !roundToFourDecimals_Fin.
  assert (Ha : 0 <= Rmax 0 (Rmin 1 a) <= 1) by (unfold Rmax, Rmin; decide_R).
  split.
  - exists (round4R x), (round4R y), (round4R z), (round4R (Rmax 0 (Rmin 1 a))).
    cbn [Color.linearRed Color.linearGreen Color.linearBlue Color.opacity Color.name].
    repeat split; try exact Hn;
      first [apply round4R_nonneg; lra | apply round4R_le_1; lra
            | apply Rle_trans with 1; [apply round4R_le_1; lra | lra]].
  - unfold round_color; cbn [Color.linearRed Color.linearGreen Color.linearBlue Color.opacity
      Color.name].
    rewrite !roundToFourDecimals_Fin, !round4R_idem. reflexivity.
Qed.

(** ** Failures of the validation *)

(** [for_each] stops at the first element whose check throws. *)
Lemma for_each_app_throw {A} (f : A -> result unit) (pre post : list A) (x : A) (e : exn) :
  Forall (fun y => f y = Ok tt) pre -> f x = Throw e ->
  for_each f (pre ++ x :: post) = Throw e.
Proof.
  intros F Hx. induction F as [|y pre Hy _ IH]; cbn [app for_each].
  - rewrite Hx. reflexivity.
  - rewrite Hy. cbn [bind]. exact IH.
Qed.

(** A check that throws one exception [e] or nothing throws [e] on a list
    holding an element it rejects. *)
Lemma for_each_in_throw {A} (f : A -> result unit) (xs : list A) (x : A) (e : exn) :
  (forall y, f y = Ok tt \/ f y = Throw e) -> In x xs -> f x = Throw e ->
  for_each f xs = Throw e.
Proof.
  intros Hf Hin Hx. induction xs as [|y xs IH]; [destruct Hin|].
  cbn [for_each]. destruct Hin as [<-|Hin].
  - rewrite Hx. reflexivity.
  - destruct (Hf y) as [E|E]; rewrite E; cbn [bind]; [exact (IH Hin) | reflexivity].
Qed.

(** [deserialize] throws the exception of the first colour entry that the
    validation rejects. *)
Lemma deserialize_entry_throw (data : string) (parsed entry : jsval)
  (pre post : list jsval) (e : exn) :
  JSON.parse data = Ok parsed ->
  get parsed "colors" = Ok (JArray (pre ++ entry :: post)) ->
  Forall (fun d => validateColorComponent d = Ok tt) pre ->
  validateColorComponent entry = Throw e ->
  deserialize data = Throw e.
Proof.
  intros P G F E. unfold deserialize. rewrite P. cbn [bind].
  unfold ColorPalette.fromParsed, validatePalette. rewrite G. cbn [bind].
  rewrite (for_each_app_throw _ pre post entry e F E). reflexivity.
Qed.

(** * The claims *)

(** ** Rounding of the stored values *)

(** C8: the colour built with [isLinear: true] from red 0.12345, green
    0.1235, blue 0.12344 and opacity 0.12349 has the linear components
    0.1235, 0.1235, 0.1234 and 0.1235; red lies exactly at the .5 boundary of
    the fourth decimal and rounds up. *)
Theorem precision_rounding :
  exists c,
    Color.constructor
      (JObject [("red", JNumber (Fin 0.12345)); ("green", JNumber (Fin 0.1235));
                ("blue", JNumber (Fin 0.12344)); ("opacity", JNumber (Fin 0.12349));
                ("isLinear", JBool true)]) = Ok c
    /\ Color.linearComponents c =
         JObject [("red", JNumber (Fin 0.1235)); ("green", JNumber (Fin 0.1235));
                  ("blue", JNumber (Fin 0.1234)); ("opacity", JNumber (Fin 0.1235))].
Proof.
  eexists. split; [reflexivity|].
  unfold Color.linearComponents; cbn [Color.linearRed Color.linearGreen Color.linearBlue Color.opacity].
  cbn [lookup fold_left fst snd String.eqb Ascii.eqb Bool.eqb truthy with_default].
  rewrite clampOpacity_in, !roundToFourDecimals_Fin by lra.
  rewrite (round4R_spec 1235 0.12345), (round4R_spec 1235 0.1235),
    (round4R_spec 1234 0.12344), (round4R_spec 1235 0.12349) by lra.
  repeat f_equal; lra.
Qed.

(** ** The serialized form of a colour *)

(** C6: the [components] array that [toJSON] writes holds the three rounded
    linear channels, and a fourth element, the rounded opacity, exactly when
    the stored opacity is not exactly 1. *)
Theorem toJSON_alpha_iff_opacity_not_one :
  forall c : Color.t,
  exists comps,
    Color.toJSON c =
      JObject (("components", JArray comps)
                 :: (if truthy (Color.name c) then [("name", Color.name c)] else []))
    /\ firstn 3 comps = [JNumber (roundToFourDecimals (Color.linearRed c));
                         JNumber (roundToFourDecimals (Color.linearGreen c));
                         JNumber (roundToFourDecimals (Color.linearBlue c))]
    /\ (length comps = 4%nat <-> Color.opacity c <> Fin 1)
    /\ (Color.opacity c = Fin 1 -> length comps = 3%nat)
    /\ (Color.opacity c <> Fin 1 ->
          nth 3 comps JUndefined = JNumber (roundToFourDecimals (Color.opacity c))).
Proof.
  intros c. eexists. split; [reflexivity|].
  pose proof (num_neq_c_true (Color.opacity c) 1) as Hiff.
  destruct (num_neq_c (Color.opacity c) 1); simpl.
  - assert (Color.opacity c <> Fin 1) by (apply Hiff; reflexivity).
    repeat split; intros; first [reflexivity | assumption | contradiction].
  - assert (~ Color.opacity c <> Fin 1) by (intros H; apply Hiff in H; discriminate).
    repeat split; intros; first [reflexivity | discriminate | contradiction].
Qed.

(** ** Writes to the opacity *)

(** C7, as stated (the stored opacity of a value in [[0,1]] is that value
    rounded to four decimals), fails: the setter does not round. *)
Lemma set_opacity_not_rounded :
  exists c c',
    Color.constructor black = Ok c
    /\ Color.set_opacity c (JNumber (Fin 0.12345)) = Ok c'
    /\ 0 <= 0.12345 <= 1
    /\ Color.opacity c' <> roundToFourDecimals (Fin 0.12345).
Proof.
  do 2 eexists. split; [reflexivity|]. split; [reflexivity|]. split; [lra|].
  cbn [Color.opacity]. rewrite clampOpacity_in, roundToFourDecimals_Fin by lra.
  rewrite (round4R_spec 1235) by lra. intros H. injection H. lra.
Qed.

(** C7, amended: a value above 1 (or [Infinity]) is stored as 1, a value
    below 0 (or [-Infinity]) as 0, and a value in [[0,1]] exactly as given,
    without rounding. *)
Theorem set_opacity_clamps :
  forall (c : Color.t) (v : num),
  exists c',
    Color.set_opacity c (JNumber v) = Ok c'
    /\ (forall a, v = Fin a -> 1 < a -> Color.opacity c' = Fin 1)
    /\ (v = PosInf -> Color.opacity c' = Fin 1)
    /\ (forall a, v = Fin a -> a < 0 -> Color.opacity c' = Fin 0)
    /\ (v = NegInf -> Color.opacity c' = Fin 0)
    /\ (forall a, v = Fin a -> 0 <= a <= 1 -> Color.opacity c' = Fin a).
Proof.
  intros c v. eexists. split; [reflexivity|].
  cbn [Color.opacity]. repeat split; intros; subst; try reflexivity;
    cbn; unfold Rmin, Rmax; f_equal; decide_R.
Qed.

(** ** Writes to the colour channels *)

(** C3, as stated (every write stores the converted value rounded to four
    decimals), fails for the setters: setting red to 0.01 stores
    [0.01 / 12.92], not its rounding [0.0008]. *)
Lemma set_red_not_rounded :
  exists c c',
    Color.constructor black = Ok c
    /\ Color.set_red c (JNumber (Fin 0.01)) = Ok c'
    /\ Color.linearRed c' <> roundToFourDecimals (sRGBToLinear (Fin 0.01)).
Proof.
  do 2 eexists. split; [reflexivity|]. split; [reflexivity|].
  cbn [Color.linearRed]. rewrite sRGBToLinear_low, roundToFourDecimals_Fin by lra.
  rewrite (round4R_spec 8) by lra. intros H. injection H. lra.
Qed.

(** C3, amended: the constructor stores each channel converted (unless
    [isLinear]) and rounded to four decimals; rounding a finite value of
    magnitude at most 1e300 gives a multiple of 1/10000 (a larger value
    overflows to Infinity in [value * 10000], which the exact arithmetic of
    [num] does not model, so the statement stops there); the per-channel
    setters store [sRGBToLinear(value)] unrounded. *)
Theorem channel_writes :
  (forall name r g b a lin,
     exists c,
       Color.constructor (color_options name r g b a lin) = Ok c
       /\ Color.linearRed c = roundToFourDecimals (if lin then r else sRGBToLinear r)
       /\ Color.linearGreen c = roundToFourDecimals (if lin then g else sRGBToLinear g)
       /\ Color.linearBlue c = roundToFourDecimals (if lin then b else sRGBToLinear b))
  /\ (forall x, Rabs x <= 1e300 ->
        exists k, roundToFourDecimals (Fin x) = Fin (IZR k / 10000))
  /\ (forall c v, exists c', Color.set_red c (JNumber v) = Ok c'
                             /\ Color.linearRed c' = sRGBToLinear v)
  /\ (forall c v, exists c', Color.set_green c (JNumber v) = Ok c'
                             /\ Color.linearGreen c' = sRGBToLinear v)
  /\ (forall c v, exists c', Color.set_blue c (JNumber v) = Ok c'
                             /\ Color.linearBlue c' = sRGBToLinear v).
Proof.
  repeat split; intros.
  - eexists. rewrite constructor_color_options. split; [reflexivity|]. auto.
  - eexists. reflexivity.
  - eexists. split; reflexivity.
  - eexists. split; reflexivity.
  - eexists. split; reflexivity.
Qed.

(** ** Non-finite numbers *)

(** C10, as stated (every non-finite number written to a channel or to the
    opacity is stored), fails for the opacity: [Infinity] is clamped to 1. *)
Lemma infinite_opacity_clamped :
  exists c,
    Color.constructor (color_options JUndefined (Fin 0) (Fin 0) (Fin 0) PosInf false) = Ok c
    /\ ~ is_finite PosInf
    /\ Color.opacity c = Fin 1.
Proof.
  eexists. rewrite constructor_color_options. split; [reflexivity|].
  split; [intros H; exact H|]. cbn [Color.opacity clampOpacity Math_min_c Math_max_c].
  rewrite roundToFourDecimals_Fin.
  unfold Rmax. decide_R. rewrite (round4R_spec 10000) by lra. f_equal. lra.
Qed.

(** C10, amended: no non-finite number makes the constructor or a setter
    throw; a non-finite red, green or blue value is stored as it is, by the
    constructor and by the setters, and [toJSON] writes it as it is (the
    JSON text then holds [null]); a NaN opacity is stored as NaN, while an
    infinite opacity is clamped to 1 or 0, by the constructor and by the
    opacity setter. *)
Theorem nonfinite_values_accepted :
  (forall name r g b a lin,
     exists c,
       Color.constructor (color_options name r g b a lin) = Ok c
       /\ (~ is_finite r -> Color.linearRed c = r)
       /\ (~ is_finite g -> Color.linearGreen c = g)
       /\ (~ is_finite b -> Color.linearBlue c = b)
       /\ (a = NaN -> Color.opacity c = NaN)
       /\ (a = PosInf -> Color.opacity c = Fin 1)
       /\ (a = NegInf -> Color.opacity c = Fin 0))
  /\ (forall c v, ~ is_finite v ->
        (exists c', Color.set_red c (JNumber v) = Ok c' /\ Color.linearRed c' = v)
        /\ (exists c', Color.set_green c (JNumber v) = Ok c' /\ Color.linearGreen c' = v)
        /\ (exists c', Color.set_blue c (JNumber v) = Ok c' /\ Color.linearBlue c' = v))
  /\ (forall c, exists c', Color.set_opacity c (JNumber NaN) = Ok c' /\ Color.opacity c' = NaN)
  /\ (forall c, exists c', Color.set_opacity c (JNumber PosInf) = Ok c' /\ Color.opacity c' = Fin 1)
  /\ (forall c, exists c', Color.set_opacity c (JNumber NegInf) = Ok c' /\ Color.opacity c' = Fin 0)
  /\ (forall c : Color.t,
        exists comps,
          Color.toJSON c =
            JObject (("components", JArray comps)
                       :: (if truthy (Color.name c) then [("name", Color.name c)] else []))
          /\ (~ is_finite (Color.linearRed c) -> nth 0 comps JUndefined = JNumber (Color.linearRed c))
          /\ (~ is_finite (Color.linearGreen c) -> nth 1 comps JUndefined = JNumber (Color.linearGreen c))
          /\ (~ is_finite (Color.linearBlue c) -> nth 2 comps JUndefined = JNumber (Color.linearBlue c))
          /\ (Color.opacity c = NaN -> nth 3 comps JUndefined = JNumber NaN))
  /\ (forall x, ~ is_finite x -> json_reparse (JNumber x) = JNull).
Proof.
  split; [|split; [|split; [|split; [|split; [|split]]]]].
  - intros name r g b a lin. eexists. rewrite constructor_color_options.
    split; [reflexivity|]. cbn [Color.linearRed Color.linearGreen Color.linearBlue Color.opacity].
    repeat split; intros; subst;
      try (destruct lin; rewrite ?sRGBToLinear_nonfinite, roundToFourDecimals_nonfinite by assumption;
           reflexivity).
    + reflexivity.
    + cbn [clampOpacity Math_min_c Math_max_c]. rewrite roundToFourDecimals_Fin.
      unfold Rmax. decide_R.
      rewrite (round4R_spec 10000) by lra. f_equal. lra.
    + cbn [clampOpacity Math_min_c Math_max_c]. rewrite roundToFourDecimals_Fin.
      unfold Rmax. decide_R.
      rewrite (round4R_spec 0) by lra. f_equal. lra.
  - intros c v Hv. split; [|split]; eexists; (split; [reflexivity|]);
      cbn [Color.linearRed Color.linearGreen Color.linearBlue];
      apply sRGBToLinear_nonfinite, Hv.
  - intros c. eexists. split; reflexivity.
  - intros c. eexists. split; [reflexivity|].
    cbn [Color.opacity clampOpacity Math_min_c Math_max_c]. f_equal.
    unfold Rmax. decide_R.
  - intros c. eexists. split; [reflexivity|].
    cbn [Color.opacity clampOpacity Math_min_c Math_max_c]. reflexivity.
  - intros c. eexists. split; [reflexivity|].
    repeat split; intros H; cbn [nth app];
      try (rewrite roundToFourDecimals_nonfinite by assumption; reflexivity).
    rewrite H. reflexivity.
  - intros [r| | |] H; [contradiction H; exact I | reflexivity ..].
Qed.

(** ** The transfer functions *)

(** C4, as stated, fails: at [s = 0.04045], [sRGBToLinear] takes its linear
    branch and gives [0.04045 / 12.92], which lies above the threshold
    0.0031308 of [linearToSRGB], whose power branch then returns a value more
    than 1e-8 below [s]. *)
Lemma transfer_roundtrip_off_at_threshold :
  exists r,
    linearToSRGB (sRGBToLinear (Fin 0.04045)) = Fin r
    /\ 0 <= 0.04045 <= 1
    /\ r < 0.04045 - 0.00000001.
Proof.
  set (x := 0.04045 / 12.92).
  exists (Rpower x (1 / 2.4) * 1.055 + - 0.055). split; [|split; [lra|]].
  - rewrite sRGBToLinear_low by lra. apply linearToSRGB_high. unfold x. lra.
  - assert (Rpower x (1 / 2.4) < (0.04045 - 0.00000001 + 0.055) / 1.055); [|lra].
    apply (pow_lt_reverse _ _ 12); [left; apply exp_pos | lra |].
    rewrite Rpower_inv_pow by (unfold x; lra). unfold x. lra.
Qed.

(** C4, amended: in exact arithmetic the two functions undo each other
    except on two short intervals that the thresholds 0.04045 and 0.0031308
    leave between the branches: [linearToSRGB(sRGBToLinear(s)) = s] unless
    [0.040449936 < s <= 0.04045], and [sRGBToLinear(linearToSRGB(l)) = l]
    unless [0.0031308 < l <= ((0.04045 + 0.055) / 1.055) ^ 2.4]
    (about 0.0031308073). *)
Theorem transfer_functions_inverse :
  (forall s, s <= 0.040449936 \/ 0.04045 < s ->
             linearToSRGB (sRGBToLinear (Fin s)) = Fin s)
  /\ (forall l, l <= 0.0031308 \/ Rpower a0 2.4 < l ->
                sRGBToLinear (linearToSRGB (Fin l)) = Fin l).
Proof.
  split.
  - intros s [Hs|Hs].
    + rewrite sRGBToLinear_low, linearToSRGB_low by lra. f_equal. lra.
    + set (a := (s + 0.055) / 1.055).
      assert (Ha : a0 < a) by (unfold a, a0; lra).
      assert (Ha0 : 0 < a0) by (unfold a0; lra).
      rewrite sRGBToLinear_high by lra. fold a.
      pose proof (Rlt_Rpower_l a0 a 2.4 ltac:(lra) (conj Ha0 Ha)).
      pose proof a0_pow_above_threshold.
      rewrite linearToSRGB_high by lra. rewrite Rpower_pow_cancel by lra.
      f_equal. unfold a. lra.
  - intros l [Hl|Hl].
    + rewrite linearToSRGB_low, sRGBToLinear_low by lra. f_equal. lra.
    + pose proof a0_pow_above_threshold.
      assert (Ha0 : 0 < a0) by (unfold a0; lra).
      rewrite linearToSRGB_high by lra.
      pose proof (Rlt_Rpower_l (Rpower a0 2.4) l (1 / 2.4) ltac:(lra)
                    (conj (exp_pos _) Hl)) as Hlt.
      rewrite Rpower_pow_cancel in Hlt by lra.
      assert (Hy : 0.04045 < Rpower l (1 / 2.4) * 1.055 + - 0.055) by (unfold a0 in Hlt; lra).
      rewrite sRGBToLinear_high by exact Hy. f_equal.
      replace ((Rpower l (1 / 2.4) * 1.055 + - 0.055 + 0.055) / 1.055)
        with (Rpower l (1 / 2.4)) by lra.
      apply Rpower_cancel_pow. lra.
Qed.

(** ** The hexadecimal notations *)

(** C9: [Color.fromHexNumber(h)] throws [Error("Invalid hex value")]
    exactly when [h] is negative, not an integer, or above [0xFFFFFFFF];
    every other [h] gives a colour, built from the channels that the
    dispatch by magnitude of the specification gives (nibbles over 15 up to
    [0xFFFF], bytes over 255 above, with an alpha channel for [0x1000] to
    [0xFFFF] and above [0xFFFFFF]). *)
Theorem fromHexNumber_errors_and_dispatch :
  (forall h, Color.fromHexNumber h = Throw (Error "Invalid hex value")
             <-> HexSpec.invalid_hex_value h)
  /\ (forall z, (0 <= z <= 0xFFFFFFFF)%Z ->
        exists r g b a c,
          HexSpec.fromHexNumber z = Some (r, g, b, a)
          /\ Color.fromHexNumber (Fin (IZR z)) = Ok c
          /\ Color.constructor (Color.rgba_options (Fin r) (Fin g) (Fin b) (Fin a)) = Ok c).
Proof.
  split.
  - intros h. split.
    + intros H. destruct h as [r| | |]; simpl; try exact I.
      destruct (Color.Number_isInteger (Fin r)) eqn:Hi.
      * apply Number_isInteger_Fin in Hi as [z ->].
        destruct (Z_lt_le_dec z 0) as [Hneg|Hpos]; [right; left; apply IZR_lt; exact Hneg|].
        destruct (Z_le_gt_dec z 0xFFFFFFFF) as [Hle|Hgt].
        -- destruct (fromHexNumber_in_range z (conj Hpos Hle)) as (r & g & b & a & _ & E).
           rewrite E, constructor_rgba_options, constructor_color_options in H. discriminate.
        -- right; right. apply IZR_lt. lia.
      * left. intros Hz. apply Number_isInteger_Fin in Hz. congruence.
    + intros H. destruct h as [r| | |]; try reflexivity.
      unfold Color.fromHexNumber.
      destruct (Color.Number_isInteger (Fin r)) eqn:Hi; [|reflexivity].
      apply Number_isInteger_Fin in Hi as [z ->]. simpl in H.
      rewrite num_lt_c_IZR, Int_part_IZR, !num_le_c_IZR.
      destruct H as [Hn|[Hneg|Hbig]].
      * exfalso. apply Hn. eauto.
      * apply lt_IZR in Hneg. destruct (Z.ltb_spec z 0); [reflexivity | lia].
      * apply lt_IZR in Hbig. destruct (Z.ltb_spec z 0); [reflexivity|].
        simpl negb; simpl orb. cbv zeta.
        destruct (Z.leb_spec z 0xFFF); [lia|]. destruct (Z.leb_spec z 0xFFFF); [lia|].
        destruct (Z.leb_spec z 0xFFFFFF); [lia|]. destruct (Z.leb_spec z 0xFFFFFFFF); [lia|].
        reflexivity.
  - intros z Hz. destruct (fromHexNumber_in_range z Hz) as (r & g & b & a & Hs & E).
    rewrite E, constructor_rgba_options, constructor_color_options.
    do 5 eexists. split; [exact Hs|]. split; reflexivity.
Qed.

(** C2 (code_bug): [fromHexString] turns the expanded digits into one
    number and hands it to [fromHexNumber], which dispatches by magnitude, so
    the digit count is lost.  The six digits [#00FF00] (green, opacity 1 by
    the specification's decoding) make [0xFF00], read as four 4-bit
    channels: red 1, green 1, blue 0, opacity 0. *)
Theorem fromHexString_six_digits_by_magnitude :
  exists c,
    Color.fromHexString "#00FF00" = Ok c
    /\ Color.constructor (Color.rgba_options (Fin 1) (Fin 1) (Fin 0) (Fin 0)) = Ok c
    /\ Color.opacity c = Fin 0
    /\ HexSpec.fromHexString "#00FF00" = Some (0, 1, 0, 1).
Proof.
  assert (E : Color.fromHexString "#00FF00" = Color.fromHexNumber (Fin (IZR 65280)))
    by reflexivity.
  destruct (fromHexNumber_in_range 65280 ltac:(lia)) as (r & g & b & a & Hs & E').
  vm_compute in Hs. injection Hs as <- <- <- <-.
  rewrite E, E', constructor_rgba_options, constructor_color_options.
  eexists. split; [|split; [|split]].
  - reflexivity.
  - rewrite constructor_rgba_options, constructor_color_options. repeat f_equal; lra.
  - cbn [Color.opacity clampOpacity Math_min_c Math_max_c]. rewrite roundToFourDecimals_Fin.
    unfold Rmin, Rmax. decide_R. rewrite (round4R_spec 0) by lra. f_equal; lra.
  - unfold HexSpec.fromHexString, HexSpec.byte_of. simpl. repeat f_equal; lra.
Qed.

(** ** Validation in [deserialize] *)

(** C5: [deserialize] fails as the validation table of the specification
    says: on [/] with a [SyntaxError] that mentions [not valid JSON], on [{}]
    with [Colors must be an array], on a colour entry whose [components] is
    not an array with [Components must be an array], on a [components]
    array of two values with [Components must have 3 or 4 values], and on a
    [components] array of three or four values holding [-1] (or any other
    negative number or non-number) with [Component values must be
    numbers].  The three entry rows hold for any document whose entries
    before the offending one are valid, wherever that entry stands in
    [colors]; the table's own test documents are also evaluated. *)
Theorem deserialize_validation_table :
  (exists m, deserialize "/" = Throw (SyntaxError m) /\ mentions m "not valid JSON" = true)
  /\ deserialize "{}" = Throw (TypeError "Colors must be an array")
  /\ deserialize (json_text "{'colors':[{'components':'invalid'}]}")
     = Throw (TypeError "Components must be an array")
  /\ deserialize (json_text "{'colors':[{'components':[1,2]}]}")
     = Throw (Error "Components must have 3 or 4 values")
  /\ deserialize (json_text "{'colors':[{'components':[-1,0,0]}]}")
     = Throw (Error "Component values must be numbers")
  /\ (forall data parsed v,
        JSON.parse data = Ok parsed -> get parsed "colors" = Ok v ->
        (forall items, v <> JArray items) ->
        deserialize data = Throw (TypeError "Colors must be an array"))
  /\ (forall data parsed pre entry post v,
        JSON.parse data = Ok parsed ->
        get parsed "colors" = Ok (JArray (pre ++ entry :: post)) ->
        Forall (fun d => validateColorComponent d = Ok tt) pre ->
        get entry "components" = Ok v -> (forall items, v <> JArray items) ->
        deserialize data = Throw (TypeError "Components must be an array"))
  /\ (forall data parsed pre entry post x y,
        JSON.parse data = Ok parsed ->
        get parsed "colors" = Ok (JArray (pre ++ entry :: post)) ->
        Forall (fun d => validateColorComponent d = Ok tt) pre ->
        get entry "components" = Ok (JArray [x; y]) ->
        deserialize data = Throw (Error "Components must have 3 or 4 values"))
  /\ (forall data parsed pre entry post items x,
        JSON.parse data = Ok parsed ->
        get parsed "colors" = Ok (JArray (pre ++ entry :: post)) ->
        Forall (fun d => validateColorComponent d = Ok tt) pre ->
        get entry "components" = Ok (JArray items) ->
        (length items = 3 \/ length items = 4)%nat ->
        In x items -> (forall n, x = JNumber n -> num_lt_c n 0 = true) ->
        deserialize data = Throw (Error "Component values must be numbers")).
Proof.
  split; [|split; [|split; [|split; [|split; [|split; [|split; [|split]]]]]]].
  - eexists. split; [reflexivity | vm_compute; reflexivity].
  - reflexivity.
  - reflexivity.
  - reflexivity.
  - assert (P : JSON.parse (json_text "{'colors':[{'components':[-1,0,0]}]}")
                 = Ok (JObject [("colors", JArray [JObject [("components", JArray
                         [JNumber (Fin (- JSON.scale 1 0)); JNumber (Fin (JSON.scale 0 0));
                          JNumber (Fin (JSON.scale 0 0))])]])]))
      by reflexivity.
    unfold deserialize. rewrite P. cbn -[JSON.scale].
    unfold JSON.scale; simpl.
    unfold ColorPalette.fromParsed, validatePalette, validateColorComponent. cbn.
    decide_R. reflexivity.
  - intros data parsed v P G Hv. unfold deserialize. rewrite P. cbn [bind].
    unfold ColorPalette.fromParsed, validatePalette. rewrite G. cbn [bind].
    destruct v; try reflexivity. exfalso. eapply Hv. reflexivity.
  - intros data parsed pre entry post v P G F Gc Hv.
    apply (deserialize_entry_throw data parsed entry pre post _ P G F).
    unfold validateColorComponent. rewrite Gc. cbn [bind].
    destruct v; try reflexivity. exfalso. eapply Hv. reflexivity.
  - intros data parsed pre entry post x y P G F Gc.
    apply (deserialize_entry_throw data parsed entry pre post _ P G F).
    unfold validateColorComponent. rewrite Gc. reflexivity.
  - intros data parsed pre entry post items x P G F Gc Hl Hin Hx.
    apply (deserialize_entry_throw data parsed entry pre post _ P G F).
    unfold validateColorComponent. rewrite Gc. cbn [bind].
    replace (negb (Nat.eqb (length items) 3) && negb (Nat.eqb (length items) 4))%bool
      with false by (destruct Hl as [-> | ->]; reflexivity).
    apply (for_each_in_throw _ items x); [| exact Hin |].
    + intros [| | | n | | |]; try (right; reflexivity).
      destruct (num_lt_c n 0); auto.
    + destruct x as [| | | n | | |]; try reflexivity.
      rewrite (Hx n eq_refl). reflexivity.
Qed.

Lemma deserialize_validation_table_witness :
  deserialize (json_text "{'colors':[{'components':[0,0,0]},{'components':'x'}]}")
    = Throw (TypeError "Components must be an array")
  /\ deserialize (json_text "{'colors':[{'components':[0,0,0]},{'components':[1,2]}]}")
    = Throw (Error "Components must have 3 or 4 values")
  /\ deserialize (json_text "{'colors':[{'components':[0,0,0]},{'components':[0,-2,0,1]}]}")
    = Throw (Error "Component values must be numbers").
Proof.
  destruct deserialize_validation_table as (_ & _ & _ & _ & _ & _ & T3 & T4 & T5).
  pose (z := JNumber (Fin (JSON.scale 0 0))).
  pose (ok := JObject [("components", JArray [z; z; z])]).
  assert (V : Forall (fun d => validateColorComponent d = Ok tt) [ok]).
  { constructor; [|constructor].
    unfold validateColorComponent, ok, z. cbn. unfold JSON.scale. cbn. decide_R. reflexivity. }
  split; [|split].
  - pose (e := JObject [("components", JString "x")]).
    apply (T3 _ (JObject [("colors", JArray [ok; e])]) [ok] e [] (JString "x"));
      [reflexivity | reflexivity | exact V | reflexivity | intros items; discriminate].
  - pose (e := JObject [("components", JArray [JNumber (Fin (JSON.scale 1 0));
                                               JNumber (Fin (JSON.scale 2 0))])]).
    apply (T4 _ (JObject [("colors", JArray [ok; e])]) [ok] e []
             (JNumber (Fin (JSON.scale 1 0))) (JNumber (Fin (JSON.scale 2 0))));
      [reflexivity | reflexivity | exact V | reflexivity].
  - pose (bad := JNumber (Fin (- JSON.scale 2 0))).
    pose (items := [z; bad; z; JNumber (Fin (JSON.scale 1 0))]).
    pose (e := JObject [("components", JArray items)]).
    apply (T5 _ (JObject [("colors", JArray [ok; e])]) [ok] e [] items bad);
      [reflexivity | reflexivity | exact V | reflexivity | right; reflexivity
      | right; left; reflexivity |].
    intros n E. injection E as <-. unfold JSON.scale. cbn. decide_R; reflexivity.
Defined.

(** ** The round trip of a palette *)

(** C1, as stated, fails: a colour built from the non-linear red [-0.5]
    stores the linear red [-0.0387], which [serialize] writes and
    [deserialize] rejects as a negative component; and a palette named with
    the empty string is serialized without its name and comes back with the
    name [undefined]. *)
Lemma roundtrip_counterexamples :
  (exists c p,
      Color.constructor (color_options JUndefined (Fin (-0.5)) (Fin 0) (Fin 0) (Fin 1) false)
        = Ok c
      /\ Color.linearRed c = Fin (-0.0387)
      /\ ColorPalette.constructor [c] JUndefined = Ok p
      /\ ColorPalette.roundtrip p = Throw (Error "Component values must be numbers"))
  /\ (exists p,
      ColorPalette.constructor [] (JString "") = Ok p
      /\ ColorPalette.roundtrip p = Ok (ColorPalette.mk JUndefined [])).
Proof.
  split.
  - rewrite constructor_color_options.
    rewrite !sRGBToLinear_low, clampOpacity_in, !roundToFourDecimals_Fin by lra.
    rewrite (round4R_spec (-387) (-0.5 / 12.92)), (round4R_spec 0 (0 / 12.92)), round4R_1
      by lra.
    do 2 eexists. split; [reflexivity|]. split; [cbn; f_equal; lra|].
    split; [reflexivity|].
    unfold ColorPalette.roundtrip, ColorPalette.toJSON, Color.toJSON;
      cbn [ColorPalette.name ColorPalette.colors map Color.linearRed Color.linearGreen
           Color.linearBlue Color.opacity Color.name].
    rewrite !roundToFourDecimals_Fin, !round4R_IZR.
    unfold ColorPalette.fromParsed, validatePalette, validateColorComponent. cbn.
    decide_R. reflexivity.
  - eexists. split; reflexivity.
Qed.

(** C1, amended: the round trip [deserialize(serialize(P))] of a palette
    whose name is absent or a non-empty string, and whose colours have
    such names, linear channels in [[0,1000]] and an opacity in [[0,1]],
    gives back the palette with the same name and the same colours in the
    same order, each stored value rounded to four decimals.  A colour built
    by the constructor from non-linear channels in [[0,1]] (and any finite
    opacity) is of that kind and already rounded, so a palette of such
    colours comes back unchanged.  Large channels are left out: in double
    precision [sRGBToLinear] of a non-linear 1e200, or the rounding of a
    linear value above about 1.8e304, overflows to Infinity, which
    [serialize] writes as [null] and [deserialize] rejects. *)
Theorem palette_roundtrip :
  (forall (pname : jsval) (ps : list Color.t),
      name_ok pname -> Forall serializable ps ->
      ColorPalette.roundtrip (ColorPalette.mk pname ps)
      = Ok (ColorPalette.mk pname (map round_color ps)))
  /\ (forall (pname : jsval) (opts : list (jsval * R * R * R * R)) cs p,
      name_ok pname ->
      Forall (fun '(n, r, g, b, _) => name_ok n /\ 0 <= r <= 1 /\ 0 <= g <= 1 /\ 0 <= b <= 1)
        opts ->
      map_result (fun '(n, r, g, b, a) =>
                    Color.constructor (color_options n (Fin r) (Fin g) (Fin b) (Fin a) false))
                 opts = Ok cs ->
      ColorPalette.constructor cs pname = Ok p ->
      ColorPalette.roundtrip p = Ok p).
Proof.
  split; [exact palette_roundtrip_general|].
  intros pname opts cs p Hn Hopts Hcs Hp. injection Hp as <-.
  assert (H : Forall serializable cs /\ map round_color cs = cs).
  { revert cs Hcs. induction Hopts as [|[[[[n r] g] b] a] opts [Hn' [Hr [Hg Hb]]] _ IH];
      intros cs Hcs.
    - injection Hcs as <-. split; [constructor | reflexivity].
    - cbn [map_result] in Hcs.
      destruct (Color.constructor (color_options n (Fin r) (Fin g) (Fin b) (Fin a) false))
        as [c|e] eqn:Ec; [|discriminate].
      cbn [bind] in Hcs.
      destruct (map_result _ opts) as [cs'|e] eqn:Ecs; [|discriminate].
      injection Hcs as <-.
      destruct (constructed_serializable n r g b a c Hn' Hr Hg Hb Ec) as [Hc Rc].
      destruct (IH cs' eq_refl) as [Hcs' Rcs'].
      split; [constructor; assumption | cbn [map]; rewrite Rc, Rcs'; reflexivity]. }
  destruct H as [Hser Hround].
  rewrite (palette_roundtrip_general pname cs Hn Hser), Hround. reflexivity.
Qed.


(** * Further properties of the code *)

(** ** Validation in the [Color] constructor *)

Lemma constructor_props (options : jsval) :
  options <> JNull ->
  Color.constructor options =
  (let* r := validateComponent (prop options "red") "Red" in
   let* g := validateComponent (prop options "green") "Green" in
   let* b := validateComponent (prop options "blue") "Blue" in
   let* a := validateComponent (with_default (prop options "opacity") (JNumber (Fin 1)))
               "Opacity" in
   let isLinear := with_default (prop options "isLinear") (JBool false) in
   Ok {| Color.name := prop options "name";
         Color.linearRed := roundToFourDecimals (if truthy isLinear then r else sRGBToLinear r);
         Color.linearGreen := roundToFourDecimals (if truthy isLinear then g else sRGBToLinear g);
         Color.linearBlue := roundToFourDecimals (if truthy isLinear then b else sRGBToLinear b);
         Color.opacity := roundToFourDecimals (clampOpacity a) |}).
Proof. intros H. destruct options; try reflexivity. contradiction H. reflexivity. Qed.

(** [new Color(options)] checks red, green, blue and opacity in this
    order and throws a [TypeError] naming the first one that is not a
    number; a missing opacity is 1, so it may be left out, while a missing
    channel is rejected ([new Color()] throws for red).  When all four are
    numbers the constructor succeeds and keeps the given name. *)
Theorem color_constructor_validation :
  forall options : jsval, options <> JNull ->
  let red := prop options "red" in
  let green := prop options "green" in
  let blue := prop options "blue" in
  let opacity := with_default (prop options "opacity") (JNumber (Fin 1)) in
  (is_number red = false ->
     Color.constructor options = Throw (TypeError "Red component must be a number"))
  /\ (is_number red = true -> is_number green = false ->
     Color.constructor options = Throw (TypeError "Green component must be a number"))
  /\ (is_number red = true -> is_number green = true -> is_number blue = false ->
     Color.constructor options = Throw (TypeError "Blue component must be a number"))
  /\ (is_number red = true -> is_number green = true -> is_number blue = true ->
      is_number opacity = false ->
     Color.constructor options = Throw (TypeError "Opacity component must be a number"))
  /\ (is_number red = true -> is_number green = true -> is_number blue = true ->
      is_number opacity = true ->
      exists c, Color.constructor options = Ok c /\ Color.name c = prop options "name").
Proof.
  intros options Hn red green blue opacity.
  rewrite (constructor_props options Hn). subst red green blue opacity.
  destruct (prop options "red"); try (split; [reflexivity | repeat split; discriminate]);
  (split; [discriminate|]); cbn [validateComponent bind];
  (destruct (prop options "green"); try (split; [reflexivity | repeat split; discriminate]);
   (split; [discriminate|]); cbn [validateComponent bind]);
  (destruct (prop options "blue"); try (split; [reflexivity | repeat split; discriminate]);
   (split; [discriminate|]); cbn [validateComponent bind]);
  (destruct (with_default (prop options "opacity") (JNumber (Fin 1)));
   try (split; [reflexivity | discriminate]);
   (split; [discriminate|]); cbn [validateComponent bind]);
  intros _ _ _ _; eexists; split; reflexivity.
Qed.

(** The options of [new Color({red: 0, green: 0, blue: 0})]. *)
Lemma color_constructor_validation_witness :
  JObject [("red", JNumber (Fin 0)); ("green", JNumber (Fin 0)); ("blue", JNumber (Fin 0))]
    <> JNull
  /\ exists c,
    Color.constructor
      (JObject [("red", JNumber (Fin 0)); ("green", JNumber (Fin 0)); ("blue", JNumber (Fin 0))])
      = Ok c /\ Color.name c = JUndefined.
Proof.
  split; [discriminate|].
  exact (proj2 (proj2 (proj2 (proj2 (color_constructor_validation
    (JObject [("red", JNumber (Fin 0)); ("green", JNumber (Fin 0));
              ("blue", JNumber (Fin 0))]) ltac:(discriminate)))))
    eq_refl eq_refl eq_refl eq_refl).
Defined.

(** ** Setters and getters of the channels *)

Lemma srgb_linear_srgb (s : R) :
  s <= 0.040449936 \/ 0.04045 < s -> linearToSRGB (sRGBToLinear (Fin s)) = Fin s.
Proof.
  intros [Hs|Hs].
  - rewrite sRGBToLinear_low, linearToSRGB_low by lra. f_equal. lra.
  - set (a := (s + 0.055) / 1.055).
    assert (Ha : a0 < a) by (unfold a, a0; lra).
    assert (Ha0 : 0 < a0) by (unfold a0; lra).
    rewrite sRGBToLinear_high by lra. fold a.
    pose proof (Rlt_Rpower_l a0 a 2.4 ltac:(lra) (conj Ha0 Ha)).
    pose proof a0_pow_above_threshold.
    rewrite linearToSRGB_high by lra. rewrite Rpower_pow_cancel by lra.
    f_equal. unfold a. lra.
Qed.

(** Assigning a finite number [v] to [red], [green] or [blue] and reading
    the same channel back gives [v] exactly (in exact arithmetic), for every
    [v] outside the interval (0.040449936, 0.04045] between the two
    branches of the transfer functions; the other channels, the opacity and
    the name are left as they were. *)
Theorem channel_set_get :
  forall (c : Color.t) (v : R), v <= 0.040449936 \/ 0.04045 < v ->
  (exists c', Color.set_red c (JNumber (Fin v)) = Ok c' /\ Color.red c' = Fin v
     /\ Color.green c' = Color.green c /\ Color.blue c' = Color.blue c
     /\ Color.get_opacity c' = Color.get_opacity c /\ Color.name c' = Color.name c)
  /\ (exists c', Color.set_green c (JNumber (Fin v)) = Ok c' /\ Color.green c' = Fin v
     /\ Color.red c' = Color.red c /\ Color.blue c' = Color.blue c
     /\ Color.get_opacity c' = Color.get_opacity c /\ Color.name c' = Color.name c)
  /\ (exists c', Color.set_blue c (JNumber (Fin v)) = Ok c' /\ Color.blue c' = Fin v
     /\ Color.red c' = Color.red c /\ Color.green c' = Color.green c
     /\ Color.get_opacity c' = Color.get_opacity c /\ Color.name c' = Color.name c).
Proof.
  intros c v Hv. pose proof (srgb_linear_srgb v Hv) as E.
  split; [|split]; eexists; (split; [reflexivity|]); unfold Color.red, Color.green, Color.blue;
    cbn [Color.linearRed Color.linearGreen Color.linearBlue Color.opacity Color.name
         Color.get_opacity];
    repeat split; assumption.
Qed.

Lemma channel_set_get_witness :
  exists c c', Color.constructor black = Ok c
    /\ Color.set_red c (JNumber (Fin 0.5)) = Ok c' /\ Color.red c' = Fin 0.5.
Proof.
  destruct (proj1 (channel_set_get (Color.mk JUndefined (Fin 0) (Fin 0) (Fin 0) (Fin 1)) 0.5
                     ltac:(right; lra))) as (c' & E & R & _).
  exists (Color.mk JUndefined (Fin 0) (Fin 0) (Fin 0) (Fin 1)), c'.
  split; [|split; assumption].
  unfold black. rewrite constructor_color_options, sRGBToLinear_low, clampOpacity_in,
    !roundToFourDecimals_Fin, (round4R_spec 0 (0 / 12.92)), round4R_1 by lra.
  repeat f_equal; lra.
Defined.

(** ** The colours of the hexadecimal notations *)

Lemma fromHexNumber_ok_range (h : num) (c : Color.t) :
  Color.fromHexNumber h = Ok c -> exists z, h = Fin (IZR z) /\ (0 <= z <= 0xFFFFFFFF)%Z.
Proof.
  intros H. destruct h as [r| | |]; [|discriminate H ..].
  unfold Color.fromHexNumber, Color.Number_isInteger in H.
  destruct (Req_EM_T (IZR (Int_part r)) r) as [E|E]; [|discriminate H].
  exists (Int_part r). split; [rewrite E; reflexivity|].
  rewrite <- E in H. rewrite num_lt_c_IZR, !num_le_c_IZR in H.
  destruct (Z.ltb_spec (Int_part r) 0); [discriminate H|].
  destruct (Z.leb_spec (Int_part r) 0xFFF); [lia|].
  destruct (Z.leb_spec (Int_part r) 0xFFFF); [lia|].
  destruct (Z.leb_spec (Int_part r) 0xFFFFFF); [lia|].
  destruct (Z.leb_spec (Int_part r) 0xFFFFFFFF); [lia|].
  discriminate H.
Qed.

Lemma nibble_bounds (z i : Z) : 0 <= HexSpec.nibble z i / 15 <= 1.
Proof.
  unfold HexSpec.nibble. pose proof (Z.mod_pos_bound (z / 16 ^ i) 16 ltac:(lia)) as [H1 H2].
  apply IZR_le in H1. assert (IZR ((z / 16 ^ i) mod 16) <= 15) by (apply IZR_le; lia).
  split; unfold Rdiv; [apply Rmult_le_pos; lra|]. lra.
Qed.

Lemma byte_bounds (z i : Z) : 0 <= HexSpec.byte z i / 255 <= 1.
Proof.
  unfold HexSpec.byte. pose proof (Z.mod_pos_bound (z / 256 ^ i) 256 ltac:(lia)) as [H1 H2].
  apply IZR_le in H1. assert (IZR ((z / 256 ^ i) mod 256) <= 255) by (apply IZR_le; lia).
  split; unfold Rdiv; [apply Rmult_le_pos; lra|]. lra.
Qed.

Lemma hexspec_unit (z : Z) (r g b a : R) :
  HexSpec.fromHexNumber z = Some (r, g, b, a) ->
  0 <= r <= 1 /\ 0 <= g <= 1 /\ 0 <= b <= 1 /\ 0 <= a <= 1.
Proof.
  unfold HexSpec.fromHexNumber.
  destruct (Z.ltb z 0); [discriminate|].
  destruct (Z.leb z 0xFFF); [|destruct (Z.leb z 0xFFFF);
    [|destruct (Z.leb z 0xFFFFFF); [|destruct (Z.leb z 0xFFFFFFFF); [|discriminate]]]];
  intros H; injection H as <- <- <- <-;
  repeat split; first [apply nibble_bounds | apply byte_bounds | lra].
Qed.

Lemma constructor_unit (r g b a : R) (c : Color.t) :
  0 <= r <= 1 -> 0 <= g <= 1 -> 0 <= b <= 1 -> 0 <= a <= 1 ->
  Color.constructor (Color.rgba_options (Fin r) (Fin g) (Fin b) (Fin a)) = Ok c -> in_unit c.
Proof.
  intros Hr Hg Hb Ha E. rewrite constructor_rgba_options, constructor_color_options in E.
  injection E as <-.
  destruct (sRGBToLinear_unit r Hr) as (x & -> & Hx).
  destruct (sRGBToLinear_unit g Hg) as (y & -> & Hy).
  destruct (sRGBToLinear_unit b Hb) as (w & -> & Hw).
  rewrite clampOpacity_in, !roundToFourDecimals_Fin by exact Ha.
  exists (round4R x), (round4R y), (round4R w), (round4R a).
  repeat split; first [reflexivity | apply round4R_nonneg; lra | apply round4R_le_1; lra].
Qed.

(** Every colour that [Color.fromHexNumber] or [Color.fromHexString]
    returns has finite linear channels and an opacity between 0 and 1: the
    channels the bit operations extract lie in [[0,1]], and converting them
    to linear and rounding keeps them there. *)
Theorem hex_colors_in_unit :
  (forall (h : num) (c : Color.t), Color.fromHexNumber h = Ok c -> in_unit c)
  /\ (forall (s : string) (c : Color.t), Color.fromHexString s = Ok c -> in_unit c).
Proof.
  assert (N : forall h c, Color.fromHexNumber h = Ok c -> in_unit c).
  { intros h c H. destruct (fromHexNumber_ok_range h c H) as (z & -> & Hz).
    destruct (fromHexNumber_in_range z Hz) as (r & g & b & a & Hs & E).
    destruct (hexspec_unit z r g b a Hs) as (Hr & Hg & Hb & Ha).
    rewrite E in H. exact (constructor_unit r g b a c Hr Hg Hb Ha H). }
  split; [exact N|].
  intros s c H. unfold Color.fromHexString in H. cbv zeta in H.
  match type of H with context [if negb ?t then _ else _] => destruct t end;
    [exact (N _ c H) | discriminate H].
Qed.

Ltac norm_pows :=
  repeat match goal with
  | |- context [(?a ^ ?b)%Z] =>
      let v := eval vm_compute in (a ^ b)%Z in change (a ^ b)%Z with v
  end.

Ltac hex_dispatch H :=
  revert H;
  repeat match goal with
  | |- context [Z.ltb ?x ?y] => destruct (Z.ltb_spec x y); try lia
  | |- context [Z.leb ?x ?y] => destruct (Z.leb_spec x y); try lia
  end;
  intros H.

Ltac doubled_digit :=
  match goal with
  | |- IZR ?A / 15 = IZR ?B / 255 =>
      let HZ := fresh "HZ" in
      assert (HZ : (17 * A = B)%Z) by (Z.div_mod_to_equations; lia);
      apply (f_equal IZR) in HZ; rewrite mult_IZR in HZ; lra
  end.

(** The short hexadecimal numbers agree with their doubled long forms
    whenever the long form is large enough to be dispatched as such: a
    12-bit [0xRGB] with [R] not 0 gives the same colour as [0xRRGGBB], and
    a 16-bit [0xRGBA] with [R] not 0 the same colour as [0xRRGGBBAA] (a
    4-bit channel [d] over 15 equals the byte [17 d] over 255). *)
Theorem hex_short_forms_expand :
  forall r g b a : Z,
  (1 <= r <= 15)%Z -> (0 <= g <= 15)%Z -> (0 <= b <= 15)%Z -> (0 <= a <= 15)%Z ->
  Color.fromHexNumber (Fin (IZR (r * 256 + g * 16 + b)))
  = Color.fromHexNumber (Fin (IZR (r * 17 * 65536 + g * 17 * 256 + b * 17)))
  /\ Color.fromHexNumber (Fin (IZR (r * 4096 + g * 256 + b * 16 + a)))
     = Color.fromHexNumber
         (Fin (IZR (r * 17 * 16777216 + g * 17 * 65536 + b * 17 * 256 + a * 17))).
Proof.
  intros r g b a Hr Hg Hb Ha. split.
  - destruct (fromHexNumber_in_range (r * 256 + g * 16 + b) ltac:(lia))
      as (r1 & g1 & b1 & a1 & Hsa & ->).
    destruct (fromHexNumber_in_range (r * 17 * 65536 + g * 17 * 256 + b * 17) ltac:(lia))
      as (r2 & g2 & b2 & a2 & Hsb & ->).
    unfold HexSpec.fromHexNumber in Hsa, Hsb. hex_dispatch Hsa. hex_dispatch Hsb.
    injection Hsa as <- <- <- <-. injection Hsb as <- <- <- <-.
    unfold HexSpec.nibble, HexSpec.byte. norm_pows.
    f_equal. f_equal; f_equal; doubled_digit.
  - destruct (fromHexNumber_in_range (r * 4096 + g * 256 + b * 16 + a) ltac:(lia))
      as (r1 & g1 & b1 & a1 & Hsa & ->).
    destruct (fromHexNumber_in_range
                (r * 17 * 16777216 + g * 17 * 65536 + b * 17 * 256 + a * 17) ltac:(lia))
      as (r2 & g2 & b2 & a2 & Hsb & ->).
    unfold HexSpec.fromHexNumber in Hsa, Hsb. hex_dispatch Hsa. hex_dispatch Hsb.
    injection Hsa as <- <- <- <-. injection Hsb as <- <- <- <-.
    unfold HexSpec.nibble, HexSpec.byte. norm_pows.
    f_equal. f_equal; f_equal; doubled_digit.
Qed.

(** [0xABC] and [0xAABBCC], [0xABCD] and [0xAABBCCDD]. *)
Lemma hex_short_forms_expand_witness :
  (1 <= 10 <= 15)%Z /\ (0 <= 11 <= 15)%Z /\ (0 <= 12 <= 15)%Z /\ (0 <= 13 <= 15)%Z
  /\ Color.fromHexNumber (Fin (IZR (10 * 256 + 11 * 16 + 12)))
     = Color.fromHexNumber (Fin (IZR (10 * 17 * 65536 + 11 * 17 * 256 + 12 * 17))).
Proof.
  split; [lia | split; [lia | split; [lia | split; [lia|]]]].
  exact (proj1 (hex_short_forms_expand 10 11 12 13 ltac:(lia) ltac:(lia) ltac:(lia) ltac:(lia))).
Defined.

(** ** Normalisation in [Color.fromHexString] *)

Lemma drop_spaces_app_space (xs : list ascii) (c : ascii) :
  Color.is_trim_space c = true ->
  Color.drop_spaces (xs ++ [c])%list = (Color.drop_spaces xs ++ [c])%list
  \/ (Color.drop_spaces xs = [] /\ Color.drop_spaces (xs ++ [c])%list = []).
Proof.
  intros Hc. induction xs as [|x xs IH]; simpl.
  - right. rewrite Hc. split; reflexivity.
  - destruct (Color.is_trim_space x); [exact IH | left; reflexivity].
Qed.

Lemma drop_spaces_app_nonspace (xs : list ascii) (c : ascii) :
  Color.is_trim_space c = false ->
  Color.drop_spaces (xs ++ [c])%list = (Color.drop_spaces xs ++ [c])%list.
Proof.
  intros Hc. induction xs as [|x xs IH]; simpl.
  - rewrite Hc. reflexivity.
  - destruct (Color.is_trim_space x); [exact IH | reflexivity].
Qed.

Lemma list_ascii_of_string_app (s t : string) :
  list_ascii_of_string (s ++ t) = (list_ascii_of_string s ++ list_ascii_of_string t)%list.
Proof. induction s as [|c s IH]; simpl; [reflexivity | rewrite IH; reflexivity]. Qed.

Lemma trim_cons_space (c : ascii) (s : string) :
  Color.is_trim_space c = true -> Color.trim (String c s) = Color.trim s.
Proof. intros Hc. unfold Color.trim. simpl. rewrite Hc. reflexivity. Qed.

Lemma trim_snoc_space (c : ascii) (s : string) :
  Color.is_trim_space c = true -> Color.trim (s ++ String c EmptyString) = Color.trim s.
Proof.
  intros Hc. unfold Color.trim. rewrite list_ascii_of_string_app. simpl.
  destruct (drop_spaces_app_space (list_ascii_of_string s) c Hc) as [E|[E1 E2]].
  - rewrite E, rev_app_distr. simpl. rewrite Hc. reflexivity.
  - rewrite E1, E2. reflexivity.
Qed.

(** [trim] of a string that starts with a character other than white
    space: that character, then the rest with its trailing white space
    removed. *)
Lemma trim_cons_nonspace (x : ascii) (s : string) :
  Color.is_trim_space x = false ->
  Color.trim (String x s)
  = String x (string_of_list_ascii (rev (Color.drop_spaces (rev (list_ascii_of_string s))))).
Proof.
  intros Hx. unfold Color.trim. simpl. rewrite Hx. simpl.
  rewrite drop_spaces_app_nonspace by exact Hx. rewrite rev_app_distr. reflexivity.
Qed.

Lemma strip_hash_other (x : ascii) (t : string) :
  x <> "#"%char ->
  match String x t with String "#" rest => rest | _ => String x t end = String x t.
Proof.
  intros Hx. destruct x as [[] [] [] [] [] [] [] []]; try reflexivity.
  exfalso. apply Hx. reflexivity.
Qed.

Lemma is_trim_space_lower (c : ascii) :
  Color.is_trim_space (ascii_to_lower c) = Color.is_trim_space c.
Proof. destruct c as [[] [] [] [] [] [] [] []]; reflexivity. Qed.

Lemma hex_digit_lower (c : ascii) : Color.hex_digit (ascii_to_lower c) = Color.hex_digit c.
Proof. destruct c as [[] [] [] [] [] [] [] []]; reflexivity. Qed.

Lemma drop_spaces_lower (xs : list ascii) :
  Color.drop_spaces (map ascii_to_lower xs) = map ascii_to_lower (Color.drop_spaces xs).
Proof.
  induction xs as [|x xs IH]; simpl; [reflexivity|].
  rewrite is_trim_space_lower. destruct (Color.is_trim_space x); [exact IH | reflexivity].
Qed.

Lemma trim_lower (s : string) : Color.trim (string_to_lower s) = string_to_lower (Color.trim s).
Proof.
  unfold Color.trim, string_to_lower.
  rewrite !list_ascii_of_string_of_list_ascii, drop_spaces_lower, <- map_rev,
    drop_spaces_lower, <- map_rev. reflexivity.
Qed.

Lemma strip_hash_lower (t : string) :
  match string_to_lower t with String "#" rest => rest | _ => string_to_lower t end
  = string_to_lower (match t with String "#" rest => rest | _ => t end).
Proof.
  destruct t as [|x t]; [reflexivity|].
  unfold string_to_lower. cbn [list_ascii_of_string map string_of_list_ascii].
  destruct x as [[] [] [] [] [] [] [] []]; reflexivity.
Qed.

Lemma length_lower (s : string) : String.length (string_to_lower s) = String.length s.
Proof.
  induction s as [|c s IH]; [reflexivity|]. unfold string_to_lower in *. simpl. rewrite IH.
  reflexivity.
Qed.

Lemma double_chars_lower (s : string) :
  Color.double_chars (string_to_lower s) = string_to_lower (Color.double_chars s).
Proof.
  induction s as [|c s IH]; [reflexivity|]. unfold string_to_lower in *. simpl. rewrite IH.
  reflexivity.
Qed.

Lemma hex_format_ok_lower (s : string) :
  Color.hex_format_ok (string_to_lower s) = Color.hex_format_ok s.
Proof.
  unfold Color.hex_format_ok. rewrite length_lower. f_equal.
  unfold string_to_lower. rewrite list_ascii_of_string_of_list_ascii.
  induction (list_ascii_of_string s) as [|c cs IH]; [reflexivity|]. simpl.
  unfold Color.is_hex_digit at 1. rewrite hex_digit_lower, IH. reflexivity.
Qed.

Lemma parseInt16_lower (s : string) : Color.parseInt16 (string_to_lower s) = Color.parseInt16 s.
Proof.
  unfold Color.parseInt16, string_to_lower. rewrite list_ascii_of_string_of_list_ascii.
  generalize 0%Z. induction (list_ascii_of_string s) as [|c cs IH]; intros acc; [reflexivity|].
  simpl. rewrite hex_digit_lower. apply IH.
Qed.

(** [Color.fromHexString] ignores white space (and line terminators)
    around the text, is insensitive to the case of the letters, and treats
    a single leading [#] as optional: prefixing [#] to a text that starts
    with neither white space nor [#] does not change the result. *)
Theorem fromHexString_normalisation :
  (forall (c : ascii) (s : string), Color.is_trim_space c = true ->
     Color.fromHexString (String c s) = Color.fromHexString s
     /\ Color.fromHexString (s ++ String c EmptyString) = Color.fromHexString s)
  /\ (forall s : string, Color.fromHexString (string_to_lower s) = Color.fromHexString s)
  /\ (forall s : string,
        s = EmptyString
        \/ (exists x rest, s = String x rest /\ Color.is_trim_space x = false /\ x <> "#"%char) ->
        Color.fromHexString (String "#" s) = Color.fromHexString s).
Proof.
  split; [|split].
  - intros c s Hc. unfold Color.fromHexString.
    rewrite trim_cons_space, trim_snoc_space by exact Hc. split; reflexivity.
  - intros s. unfold Color.fromHexString. cbv zeta.
    rewrite trim_lower, strip_hash_lower, length_lower.
    set (w := match Color.trim s with String "#" rest => rest | _ => Color.trim s end).
    destruct (Nat.eqb (String.length w) 3 || Nat.eqb (String.length w) 4);
      rewrite ?double_chars_lower, hex_format_ok_lower, parseInt16_lower; reflexivity.
  - intros s Hs. unfold Color.fromHexString. cbv zeta.
    assert (W : match Color.trim (String "#" s) with
                | String "#" rest => rest | _ => Color.trim (String "#" s) end
                = match Color.trim s with String "#" rest => rest | _ => Color.trim s end).
    { rewrite (trim_cons_nonspace "#"%char s eq_refl). cbv iota.
      destruct Hs as [->|(x & rest & -> & Hx & Hh)]; [reflexivity|].
      rewrite (trim_cons_nonspace x rest Hx), strip_hash_other by exact Hh.
      cbn [list_ascii_of_string rev].
      rewrite drop_spaces_app_nonspace by exact Hx. rewrite rev_app_distr. reflexivity. }
    rewrite W. reflexivity.
Qed.

(** ** Validation and decoding in [deserialize] *)

Lemma for_each_ok {A} (f : A -> result unit) (xs : list A) :
  for_each f xs = Ok tt <-> Forall (fun x => f x = Ok tt) xs.
Proof.
  induction xs as [|x xs IH]; simpl.
  - split; [constructor | reflexivity].
  - destruct (f x) as [[]|e] eqn:E; simpl.
    + rewrite IH. split; [intros H; constructor; assumption | intros H; inversion H; assumption].
    + split; [discriminate | intros H; inversion H; congruence].
Qed.

Definition component_ok (v : jsval) : Prop := exists n, v = JNumber n /\ num_lt_c n 0 = false.

Definition entry_ok (entry : jsval) : Prop :=
  exists items, get entry "components" = Ok (JArray items)
    /\ (length items = 3 \/ length items = 4)%nat /\ Forall component_ok items.

Lemma validateColorComponent_ok (entry : jsval) :
  validateColorComponent entry = Ok tt <-> entry_ok entry.
Proof.
  unfold validateColorComponent, entry_ok.
  destruct (get entry "components") as [v|e]; cbn [bind];
    [|split; [discriminate | intros (items & H & _); discriminate]].
  destruct v as [| | | | |items|];
    try (split; [discriminate | intros (items & H & _); discriminate]).
  assert (C : forall x : jsval,
             (match x with
              | JNumber n => if num_lt_c n 0
                             then Throw (Error "Component values must be numbers") else Ok tt
              | _ => Throw (Error "Component values must be numbers")
              end) = Ok tt <-> component_ok x).
  { intros x. unfold component_ok. destruct x; try (split; [discriminate | intros (m & H & _);
      discriminate]).
    destruct (num_lt_c n 0) eqn:E; split.
    - discriminate.
    - intros (m & H & L). injection H as <-. congruence.
    - intros _. exists n. split; [reflexivity | exact E].
    - reflexivity. }
  destruct (negb (Nat.eqb (length items) 3) && negb (Nat.eqb (length items) 4)) eqn:L.
  - split; [discriminate|]. intros (its & H & Hl & _). injection H as <-.
    destruct Hl as [Hl|Hl]; rewrite Hl in L; discriminate.
  - rewrite for_each_ok. split.
    + intros H. exists items. split; [reflexivity|]. split.
      * apply andb_false_iff in L. destruct L as [L|L]; apply negb_false_iff, Nat.eqb_eq in L;
          [left | right]; exact L.
      * eapply Forall_impl; [|exact H]. intros x Hx. apply C, Hx.
    + intros (its & H & _ & F). injection H as <-.
      eapply Forall_impl; [|exact F]. intros x Hx. apply C, Hx.
Qed.

(** The documents that [deserialize] accepts after parsing: [colors] is an
    array, and every entry of it has a [components] array of three or four
    numbers none of which is below 0 (values above 1 pass). *)
Theorem validatePalette_accepts :
  forall parsed : jsval,
  validatePalette parsed = Ok tt
  <-> exists items, get parsed "colors" = Ok (JArray items) /\ Forall entry_ok items.
Proof.
  intros parsed. unfold validatePalette.
  destruct (get parsed "colors") as [v|e]; cbn [bind];
    [|split; [discriminate | intros (items & H & _); discriminate]].
  destruct v as [| | | | |items|];
    try (split; [discriminate | intros (items & H & _); discriminate]).
  rewrite for_each_ok. split.
  - intros H. exists items. split; [reflexivity|].
    eapply Forall_impl; [|exact H]. intros x Hx. apply validateColorComponent_ok, Hx.
  - intros (its & H & F). injection H as <-.
    eapply Forall_impl; [|exact F]. intros x Hx. apply validateColorComponent_ok, Hx.
Qed.

Lemma get_array_object (v : jsval) (k : string) (items : list jsval) :
  get v k = Ok (JArray items) -> exists ps, v = JObject ps.
Proof. destruct v; try discriminate. intros _. eexists. reflexivity. Qed.

Lemma get_object (ps : list (string * jsval)) (k : string) :
  get (JObject ps) k = Ok (prop (JObject ps) k).
Proof. reflexivity. Qed.

Lemma parseColor_decoded (entry : jsval) :
  entry_ok entry -> exists c, ColorPalette.parseColor entry = Ok c /\ decoded entry c.
Proof.
  intros (items & Hg & Hl & F).
  destruct (get_array_object entry "components" items Hg) as [ps ->].
  destruct Hl as [Hl|Hl];
    (destruct items as [|x1 [|x2 [|x3 [|x4 [|x5 rest]]]]]; try discriminate Hl);
    repeat match goal with
           | F : Forall component_ok (_ :: _) |- _ =>
               let H := fresh "Hc" in let G := fresh "F" in
               inversion F as [|? ? H G]; subst; clear F;
               destruct H as (? & -> & ?)
           end.
  - eexists. split.
    + unfold ColorPalette.parseColor. rewrite Hg. cbn [bind nth with_default].
      rewrite get_object. cbn [bind]. exact (constructor_color_options _ _ _ _ _ true).
    + do 5 eexists. split; [exact Hg|]. split; [left; split; reflexivity|].
      cbn [Color.name Color.linearRed Color.linearGreen Color.linearBlue Color.opacity truthy].
      repeat split; reflexivity.
  - eexists. split.
    + unfold ColorPalette.parseColor. rewrite Hg. cbn [bind nth with_default].
      rewrite get_object. cbn [bind]. exact (constructor_color_options _ _ _ _ _ true).
    + do 5 eexists. split; [exact Hg|]. split; [right; reflexivity|].
      cbn [Color.name Color.linearRed Color.linearGreen Color.linearBlue Color.opacity truthy].
      repeat split; reflexivity.
Qed.

(** Once a parsed document passes validation, [deserialize] does not fail:
    it returns a palette named by the document's [name] (whatever its
    type, absent giving [undefined]), with one colour per entry, in the
    same order, each decoded as [decoded] says: the components are linear
    values (no sRGB conversion), rounded to four decimals by [deserialize]
    and again by the constructor, the opacity
    defaults to 1 and is clamped to [[0,1]], and the entry's [name] is
    kept. *)
Theorem fromParsed_after_validation :
  forall parsed : jsval, validatePalette parsed = Ok tt ->
  exists items cs,
    get parsed "colors" = Ok (JArray items)
    /\ ColorPalette.fromParsed parsed = Ok (ColorPalette.mk (prop parsed "name") cs)
    /\ Forall2 decoded items cs.
Proof.
  intros parsed H.
  assert (H' := H). apply validatePalette_accepts in H' as (items & Hg & F).
  assert (P : exists cs, map_result ColorPalette.parseColor items = Ok cs
                         /\ Forall2 decoded items cs).
  { clear Hg H. induction F as [|x xs Hx _ IH].
    - exists []. split; [reflexivity | constructor].
    - destruct IH as (cs & E & F2). destruct (parseColor_decoded x Hx) as (c & Ec & Dc).
      exists (c :: cs). split; [|constructor; assumption].
      cbn [map_result]. rewrite Ec. cbn [bind]. rewrite E. reflexivity. }
  destruct P as (cs & E & F2). exists items, cs. split; [exact Hg|]. split; [|exact F2].
  destruct (get_array_object parsed "colors" items Hg) as [ps ->].
  unfold ColorPalette.fromParsed. rewrite H. cbn [bind]. rewrite Hg. cbn [bind].
  rewrite E. cbn [bind]. reflexivity.
Qed.

(** The document [{colors: [{components: [0.5, 0.25, 0]}]}]. *)
Lemma fromParsed_after_validation_witness :
  exists items cs,
    validatePalette (JObject [("colors", JArray [JObject [("components",
      JArray [JNumber (Fin 0.5); JNumber (Fin 0.25); JNumber (Fin 0)])]])]) = Ok tt
    /\ get (JObject [("colors", JArray [JObject [("components",
      JArray [JNumber (Fin 0.5); JNumber (Fin 0.25); JNumber (Fin 0)])]])]) "colors"
       = Ok (JArray items)
    /\ Forall2 decoded items cs.
Proof.
  assert (V : validatePalette (JObject [("colors", JArray [JObject [("components",
      JArray [JNumber (Fin 0.5); JNumber (Fin 0.25); JNumber (Fin 0)])]])]) = Ok tt).
  { unfold validatePalette, validateColorComponent. cbn. decide_R. reflexivity. }
  destruct (fromParsed_after_validation _ V) as (items & cs & Hg & _ & F).
  exists items, cs. split; [exact V | split; assumption].
Defined.

(** What [deserialize] does with a parsed document that is not an object:
    [null] throws when [colors] is read, and a boolean, number, string or
    array has no [colors] and is rejected with [Colors must be an array].
    An object with an empty [colors] array gives an empty palette. *)
Theorem fromParsed_non_object :
  ColorPalette.fromParsed JNull
    = Throw (TypeError "Cannot read properties of null (reading 'colors')")
  /\ (forall v : jsval,
        match v with JBool _ | JNumber _ | JString _ | JArray _ => True | _ => False end ->
        ColorPalette.fromParsed v = Throw (TypeError "Colors must be an array"))
  /\ (forall ps : list (string * jsval), lookup "colors" ps = JArray [] ->
        ColorPalette.fromParsed (JObject ps) = Ok (ColorPalette.mk (lookup "name" ps) [])).
Proof.
  split; [reflexivity | split].
  - intros v Hv. destruct v; try contradiction Hv; reflexivity.
  - intros ps E. unfold ColorPalette.fromParsed, validatePalette. cbn [get]. rewrite E.
    reflexivity.
Qed.

(** ** The [ColorPalette] constructor *)

(** [new ColorPalette({colors, name})]: without [colors] the palette is
    empty; an array of [Color] instances is kept in its order; an array
    with any element that is not a [Color] instance is rejected with
    [Each color must be an instance of Color]; and a [colors] value that is
    not an array is rejected with [The `colors` must be an array]. *)
Theorem palette_constructor_checks :
  (forall name : jsval,
     ColorPalette.construct (ColorPalette.AValue JUndefined) name = Ok (ColorPalette.mk name []))
  /\ (forall (cs : list Color.t) (name : jsval),
        ColorPalette.construct (ColorPalette.AArray (map ColorPalette.AColor cs)) name
        = Ok (ColorPalette.mk name cs))
  /\ (forall (items : list ColorPalette.arg) (name : jsval),
        (exists x, In x items /\ forall c, x <> ColorPalette.AColor c) ->
        ColorPalette.construct (ColorPalette.AArray items) name
        = Throw (TypeError "Each color must be an instance of Color"))
  /\ (forall (xs : list jsval) (name : jsval), xs <> [] ->
        ColorPalette.construct (ColorPalette.AValue (JArray xs)) name
        = Throw (TypeError "Each color must be an instance of Color"))
  /\ (forall (c : Color.t) (name : jsval),
        ColorPalette.construct (ColorPalette.AColor c) name
        = Throw (TypeError "The `colors` must be an array"))
  /\ (forall (v : jsval) (name : jsval),
        match v with JUndefined | JArray _ => False | _ => True end ->
        ColorPalette.construct (ColorPalette.AValue v) name
        = Throw (TypeError "The `colors` must be an array")).
Proof.
  split; [|split; [|split; [|split; [|split]]]].
  - reflexivity.
  - intros cs name. unfold ColorPalette.construct.
    induction cs as [|c cs IH]; [reflexivity|].
    cbn [map for_each map_result bind] in *.
    destruct (for_each _ (map ColorPalette.AColor cs)) as [[]|e]; [|discriminate IH].
    cbn [bind] in *.
    destruct (map_result _ (map ColorPalette.AColor cs)) as [cs'|e]; [|discriminate IH].
    injection IH as ->. reflexivity.
  - intros items name (x & Hin & Hx). unfold ColorPalette.construct.
    assert (E : for_each (fun color =>
                            match color with
                            | ColorPalette.AColor _ => Ok tt
                            | _ => Throw (TypeError "Each color must be an instance of Color")
                            end) items
                = Throw (TypeError "Each color must be an instance of Color")).
    { induction items as [|y ys IH]; [contradiction Hin|].
      destruct Hin as [->|Hin].
      - destruct x as [c|v|zs]; [exfalso; exact (Hx c eq_refl) | reflexivity | reflexivity].
      - cbn [for_each]. destruct y; cbn [bind]; [exact (IH Hin) | reflexivity | reflexivity]. }
    rewrite E. reflexivity.
  - intros [|x xs] name H; [contradiction H; reflexivity | reflexivity].
  - reflexivity.
  - intros v name Hv. destruct v; try contradiction Hv; reflexivity.
Qed.
